(** * Ponse: iRTSP message codec, primary session and side-channel relay

    A shallow embedding of the message codec ([Message], [ToBytes],
    [NewMessage]) and of main.go ([handleIRTSPConnection],
    [startMediaConnection], [handleMediaConnection]).

    Conventions of the embedding:
    - a Go [string] / [[]byte] is a [string] (a list of 8-bit [ascii]);
    - a Go [int] is a [Z] together with the 64-bit range [int_range];
    - a Go [map[string]string] is a [gmap string string]; the order in which
      [range] visits it is a parameter ([range_order]);
    - a run-time panic is the [Panics] outcome of the [outcome] monad;
    - network effects are recorded as a trace of [Event]s, the results of
      reads and writes are supplied by the environment. *)

From Stdlib Require Import ZArith Ascii String List Lia Bool.
From Stdlib Require Import DecimalString DecimalZ DecimalPos.
From stdpp Require Import strings gmap.

Local Open Scope Z_scope.

(** ** Bytes used as delimiters *)

Definition CR : ascii := "013"%char.
Definition LF : ascii := "010"%char.
Definition CRLF : string := String CR (String LF "").

(** ** Run-time panics *)

Inductive panic : Type :=
| IndexOutOfRange (i len : Z)
| SliceBoundsOutOfRange (i len : Z)
| NilDereference.

Inductive outcome (A : Type) : Type :=
| Returns (a : A)
| Panics (p : panic).
Arguments Returns {A} a.
Arguments Panics {A} p.

#[global] Instance outcome_ret : MRet outcome := fun A a => Returns a.
#[global] Instance outcome_bind : MBind outcome := fun A B k x =>
  match x with
  | Returns a => k a
  | Panics p => Panics p
  end.

(** ** Go slices of strings: [len], [s[i]], [s[:j]], [s[i:]] *)

Module slice.

Definition len {A} (l : list A) : Z := Z.of_nat (length l).

(** [l[i]]: panics unless [0 <= i < len l]. *)
Definition index {A} (l : list A) (i : Z) : outcome A :=
  if (i <? 0) || (len l <=? i) then Panics (IndexOutOfRange i (len l))
  else match nth_error l (Z.to_nat i) with
       | Some x => Returns x
       | None => Panics (IndexOutOfRange i (len l))
       end.

(** [l[:j]]: panics unless [0 <= j <= len l]. *)
Definition to {A} (l : list A) (j : Z) : outcome (list A) :=
  if (j <? 0) || (len l <? j) then Panics (SliceBoundsOutOfRange j (len l))
  else Returns (firstn (Z.to_nat j) l).

(** [l[i:]]: panics unless [0 <= i <= len l]. *)
Definition from {A} (l : list A) (i : Z) : outcome (list A) :=
  if (i <? 0) || (len l <? i) then Panics (SliceBoundsOutOfRange i (len l))
  else Returns (skipn (Z.to_nat i) l).

End slice.

(** ** The functions of Go's [strings] package that the program calls *)

Module strings.

(** [strings.Contains(s, string(c))] *)
Fixpoint ContainsByte (s : string) (c : ascii) : bool :=
  match s with
  | EmptyString => false
  | String x r => Ascii.eqb x c || ContainsByte r c
  end.

(** [strings.ReplaceAll(s, string([a, b]), new)] for a two-byte pattern:
    non-overlapping occurrences are replaced from left to right. *)
Fixpoint ReplaceAll2 (s : string) (a b : ascii) (new : string) : string :=
  match s with
  | EmptyString => EmptyString
  | String x t =>
      match t with
      | String y r =>
          if Ascii.eqb x a && Ascii.eqb y b
          then new +:+ ReplaceAll2 r a b new
          else String x (ReplaceAll2 t a b new)
      | EmptyString => String x EmptyString
      end
  end.

(** [strings.Split(s, string(sep))] for a one-byte separator: one more
    element than there are separators, never the empty slice. *)
Fixpoint Split (s : string) (sep : ascii) : list string :=
  match s with
  | EmptyString => [EmptyString]
  | String x r =>
      if Ascii.eqb x sep then EmptyString :: Split r sep
      else match Split r sep with
           | h :: t => String x h :: t
           | [] => [String x EmptyString]
           end
  end.

(** [strings.Cut(s, string(sep))] for a one-byte separator:
    [(before, after, found)], cutting at the first separator. *)
Fixpoint Cut (s : string) (sep : ascii) : string * string * bool :=
  match s with
  | EmptyString => (EmptyString, EmptyString, false)
  | String x r =>
      if Ascii.eqb x sep then (EmptyString, r, true)
      else match Cut r sep with
           | (before, after, true) => (String x before, after, true)
           | (_, _, false) => (s, EmptyString, false)
           end
  end.

(** [strings.TrimRight(s, string(c))]: every trailing [c] is removed. *)
Fixpoint TrimRight (s : string) (c : ascii) : string :=
  match s with
  | EmptyString => EmptyString
  | String x r =>
      match TrimRight r c with
      | EmptyString => if Ascii.eqb x c then EmptyString else String x EmptyString
      | r' => String x r'
      end
  end.

(** [strings.TrimSuffix(s, string(c))]: at most one trailing [c] is removed. *)
Fixpoint TrimSuffix (s : string) (c : ascii) : string :=
  match s with
  | EmptyString => EmptyString
  | String x EmptyString => if Ascii.eqb x c then EmptyString else s
  | String x r => String x (TrimSuffix r c)
  end.

(** [strings.CutPrefix(s, prefix)]: [(after, found)]; [s] itself when it
    does not start with [prefix]. *)
Fixpoint CutPrefix (s prefix : string) : string * bool :=
  match prefix with
  | EmptyString => (s, true)
  | String p prefix' =>
      match s with
      | EmptyString => (s, false)
      | String x r =>
          if Ascii.eqb x p
          then match CutPrefix r prefix' with
               | (after, true) => (after, true)
               | (_, false) => (s, false)
               end
          else (s, false)
      end
  end.

End strings.

(** ** Go's [int], [strconv.Atoi] and the [%d] verb *)

Module strconv.

Definition intSize : Z := 64.
Definition minInt : Z := - 2 ^ (intSize - 1).
Definition maxInt : Z := 2 ^ (intSize - 1) - 1.
Definition int_range (z : Z) : bool := (minInt <=? z) && (z <=? maxInt).

Definition digit (c : ascii) : option Z :=
  let n := Z.of_N (N_of_ascii c) - 48 in
  if (0 <=? n) && (n <=? 9) then Some n else None.

(** The digit loop of [Atoi] / [ParseUint]: [n = n*10 + int(ch - '0')],
    a syntax error at the first byte that is not a digit. *)
Fixpoint digits (s : string) (n : Z) : option Z :=
  match s with
  | EmptyString => Some n
  | String ch r =>
      match digit ch with
      | Some d => digits r (n * 10 + d)
      | None => None
      end
  end.

(** [strconv.Atoi]: [None] stands for a non-nil [err] (syntax or range). *)
Definition Atoi (s : string) : option Z :=
  match s with
  | EmptyString => None
  | String s0 r =>
      let neg := Ascii.eqb s0 "-" in
      let body := if neg || Ascii.eqb s0 "+" then r else s in
      match body with
      | EmptyString => None
      | _ =>
          match digits body 0 with
          | None => None
          | Some n =>
              let v := if neg then - n else n in
              if int_range v then Some v else None
          end
      end
  end.

(** [fmt.Sprintf("%d", z)] *)
Definition FormatInt (z : Z) : string := NilZero.string_of_int (Z.to_int z).

End strconv.

(** ** The in-memory model shared by the codec and the proxy *)

(** [type Message struct] *)
Record Message : Type := mkMessage {
  Version : string;
  Sequence : Z;
  Method : string;
  Code : Z;
  Headers : gmap string string
}.

Definition setVersion (m : Message) (v : string) : Message :=
  mkMessage v (Sequence m) (Method m) (Code m) (Headers m).
Definition setSequence (m : Message) (n : Z) : Message :=
  mkMessage (Version m) n (Method m) (Code m) (Headers m).
Definition setMethod (m : Message) (x : string) : Message :=
  mkMessage (Version m) (Sequence m) x (Code m) (Headers m).
Definition setCode (m : Message) (c : Z) : Message :=
  mkMessage (Version m) (Sequence m) (Method m) c (Headers m).
Definition setHeaders (m : Message) (h : gmap string string) : Message :=
  mkMessage (Version m) (Sequence m) (Method m) (Code m) h.

(** [m[k]] on a Go map: the zero value when the key is absent. *)
Definition mapIndex (h : gmap string string) (k : string) : string :=
  default "" (h !! k).

(** [len(s)] of a string or byte slice *)
Definition strlen (s : string) : Z := Z.of_nat (String.length s).

(** Dereferencing a [*Message]: [None] is the nil pointer. *)
Definition deref (m : option Message) : outcome Message :=
  match m with
  | Some x => Returns x
  | None => Panics NilDereference
  end.

(** Go's [error] values as far as the program tells them apart. *)
Inductive error : Type := ErrNil | ErrDeadlineExceeded | ErrOther.

(** [err != nil] *)
Definition isErr (e : error) : bool :=
  match e with ErrNil => false | _ => true end.

(** [err != nil && !errors.Is(err, os.ErrDeadlineExceeded)] *)
Definition terminalErr (e : error) : bool :=
  match e with ErrOther => true | _ => false end.

(** A socket, and the in-place wrapping of a connection by [tls.Server] and
    [tls.Client]. [ep_remote] is what [RemoteAddr()] returns: nothing for a
    bound, unconnected datagram socket. *)
Record Endpoint : Type := mkEndpoint {
  ep_name : string;
  ep_remote : option string
}.

Inductive Conn : Type :=
| Plain (e : Endpoint)
| TLSServer (c : Conn)
| TLSClient (c : Conn).

Fixpoint RemoteAddr (c : Conn) : option string :=
  match c with
  | Plain e => ep_remote e
  | TLSServer c' => RemoteAddr c'
  | TLSClient c' => RemoteAddr c'
  end.

(** The TLS role of a leg, read off the outermost wrapper of its connection. *)
Inductive TLSRole : Type := RolePlain | SecureClient | SecureServer.

Definition role (c : Conn) : TLSRole :=
  match c with
  | Plain _ => RolePlain
  | TLSServer _ => SecureServer
  | TLSClient _ => SecureClient
  end.

(** What [n, err := c.Read(buffer); buffer = buffer[:n]] delivers. A datagram
    socket also knows who sent the bytes ([rd_from]); [Read] has no result
    for it. *)
Record ReadResult : Type := mkRead {
  rd_data : string;
  rd_from : option string;
  rd_err : error
}.

(** The socket a side channel binds. *)
Inductive Bind : Type :=
| ListenUDP (network : string) (port : Z)
| Listen (network address : string).

(** Observable effects, in program order. *)
Inductive Event : Type :=
| EvDial (network address : string)
| EvWrite (c : Conn) (b : string)
| EvWriteTo (c : Conn) (b : string) (addr : option string)
| EvClose (c : Conn)
| EvStartMedia (header kind : string)
| EvBind (b : Bind) (network port kind : string).

(** Code that has effects and may panic: the events so far and the outcome. *)
Record M (A : Type) : Type := mkM {
  trace : list Event;
  result : outcome A
}.
Arguments mkM {A} trace result.
Arguments trace {A} m.
Arguments result {A} m.

#[global] Instance M_ret : MRet M := fun A a => mkM [] (Returns a).
#[global] Instance M_bind : MBind M := fun A B k x =>
  match result x with
  | Returns a => mkM (trace x ++ trace (k a))%list (result (k a))
  | Panics p => mkM (trace x) (Panics p)
  end.

Definition emit (e : Event) : M unit := mkM [e] (Returns tt).
Definition lift {A} (o : outcome A) : M A := mkM [] o.

(** How an iteration of a [for] loop ends. *)
Inductive LoopCtl (S : Type) : Type :=
| Continue (s : S)
| Break.
Arguments Continue {S} s.
Arguments Break {S}.

Section Program.

(** Go leaves the order in which [range] visits a map unspecified. *)
Variable range_order : gmap string string -> list (string * string).

(** The package-level variables of main.go, set once in [main]. *)
Variable serverAddress : string.
Variable serverPort : string.
Variable disableTLS : bool.

(** *** The message codec *)

(** [strings.Builder.WriteString] *)
Definition WriteString (builder s : string) : string := builder +:+ s.

(** [func (m *Message) ToBytes() []byte] *)
Definition ToBytes (m : Message) : string :=
  let builder := "" in
  let builder := WriteString builder (Version m +:+ CRLF) in
  let builder :=
    WriteString builder ("Seq=" +:+ strconv.FormatInt (Sequence m) +:+ CRLF) in
  let builder :=
    if 0 <? Code m
    then WriteString builder
           ("RSP/" +:+ Method m +:+ "/" +:+ strconv.FormatInt (Code m) +:+ CRLF)
    else WriteString builder ("SET/" +:+ Method m +:+ CRLF) in
  let builder :=
    fold_left
      (fun builder (hv : string * string) =>
         let (header, value) := hv in
         if String.eqb value ""
         then WriteString builder (header +:+ CRLF)
         else WriteString builder (header +:+ "=" +:+ value +:+ CRLF))
      (range_order (Headers m)) builder in
  let builder := WriteString builder ("Submit" +:+ CRLF) in
  builder.

(** [NewMessage], lines 132-138: the header loop and the final [return msg]. *)
Definition NewMessage_headers (msg : Message) (messageLines : list string)
  : outcome (option Message) :=
  let headers :=
    fold_left
      (fun (headers : gmap string string) msgHeaderField =>
         let '(msgHeader, msgValue, _) := strings.Cut msgHeaderField "=" in
         <[msgHeader := msgValue]> headers)
      messageLines (Headers msg) in
  Returns (Some (setHeaders msg headers)).

(** [NewMessage], lines 109-138: the method line, then the rest. *)
Definition NewMessage_method (msg : Message) (messageLines : list string)
  : outcome (option Message) :=
  line ← slice.index messageLines 0;
  let '(msgSource, msgMethod, found) := strings.Cut line "/" in
  '(msg, messageLines) ←
    (if found && String.eqb msgSource "SET"
     then rest ← slice.from messageLines 1; mret (setMethod msg msgMethod, rest)
     else mret (msg, messageLines));
  if found && String.eqb msgSource "RSP"
  then
    let '(method, codeString, found) := strings.Cut msgMethod "/" in
    if found
    then
      let msg := setMethod msg method in
      match strconv.Atoi codeString with
      | None => Returns (Some msg)
      | Some code =>
          let msg := setCode msg code in
          rest ← slice.from messageLines 1;
          NewMessage_headers msg rest
      end
    else
      rest ← slice.from messageLines 1;
      NewMessage_headers msg rest
  else NewMessage_headers msg messageLines.

(** [NewMessage], lines 96-138: the sequence line, then the rest. *)
Definition NewMessage_sequence (msg : Message) (messageLines : list string)
  : outcome (option Message) :=
  line ← slice.index messageLines 0;
  let '(seqField, seqValue, found) := strings.Cut line "=" in
  if found && String.eqb seqField "Seq"
  then
    match strconv.Atoi seqValue with
    | None => Returns (Some msg)
    | Some seq =>
        let msg := setSequence msg seq in
        messageLines ← slice.from messageLines 1;
        NewMessage_method msg messageLines
    end
  else NewMessage_method msg messageLines.

(** [func NewMessage(message []byte) *Message]; [None] is [nil]. The early
    [return msg] statements make the function a chain: each of the three
    definitions above is the part of the body that follows one of them. *)
Definition NewMessage (message : string) : outcome (option Message) :=
  let messageString := message in
  let messageString := strings.ReplaceAll2 messageString CR LF (String LF "") in
  let messageLines := strings.Split messageString LF in
  if slice.len messageLines <=? 0 then Returns None
  else
    messageLines ← slice.to messageLines (slice.len messageLines - 1);
    last ← slice.index messageLines (slice.len messageLines - 1);
    messageLines ←
      (if String.eqb last "Submit"
       then slice.to messageLines (slice.len messageLines - 1)
       else Returns messageLines);
    let msg := mkMessage "" 0 "" 0 ∅ in
    version ← slice.index messageLines 0;
    let msg := setVersion msg version in
    messageLines ← slice.from messageLines 1;
    NewMessage_sequence msg messageLines.

(** *** main.go: the side-channel spawner *)

(** [func startMediaConnection(header, kind string)]. The first event records
    the call; [EvBind] records the socket that is bound and the arguments with
    which [handleMediaConnection] runs on it (on the datagram socket itself,
    or on every connection the listener accepts). [listenErr] is the error
    that [net.ListenUDP] (line 217) or [net.Listen] (line 227) returns when
    the call gets there: on an error the function logs it and returns, with
    no socket and no relay, which the caller cannot observe. *)
Definition startMediaConnection (header kind : string) (listenErr : error)
  : M unit :=
  emit (EvStartMedia header kind);;
  let headerStrings := strings.Split header "/" in
  port ← lift (slice.index headerStrings (slice.len headerStrings - 1));
  network ← lift (slice.index headerStrings (slice.len headerStrings - 2));
  if String.eqb network "ust"
  then
    let network := "udp" in
    match strconv.Atoi port with
    | None => mret tt
    | Some portInt =>
        if isErr listenErr then mret tt
        else emit (EvBind (ListenUDP network portInt) network port kind)
    end
  else
    if isErr listenErr then mret tt
    else emit (EvBind (Listen network (":" +:+ port)) network port kind).

(** *** main.go: the duplex relay *)

(** The first goroutine of [handleMediaConnection], one iteration of its
    loop: [true] when the loop goes on, [false] on [break]. *)
Definition copyClientToServer (conn serverConn : Conn) (network : string)
    (rd : ReadResult) (werr : error) : list Event * bool :=
  if terminalErr (rd_err rd) then ([], false)
  else
    let buffer := rd_data rd in
    if 0 <? strlen buffer
    then
      let ev :=
        if String.eqb network "udp"
        then EvWriteTo conn buffer (RemoteAddr serverConn)
        else EvWrite serverConn buffer in
      if isErr werr then ([ev], false) else ([ev], true)
    else ([], true).

(** The second goroutine, one iteration of its loop. *)
Definition copyServerToClient (conn serverConn : Conn) (network : string)
    (rd : ReadResult) (werr : error) : list Event * bool :=
  if terminalErr (rd_err rd) then ([], false)
  else
    let buffer := rd_data rd in
    if 0 <? strlen buffer
    then
      let ev :=
        if String.eqb network "udp"
        then EvWriteTo serverConn buffer (RemoteAddr conn)
        else EvWrite conn buffer in
      if isErr werr then ([ev], false) else ([ev], true)
    else ([], true).

(** The relay between [wg.Add(2)] and the return of [handleMediaConnection]:
    which goroutines still loop, and whether the function has returned. *)
Record Relay : Type := mkRelay {
  c2s_running : bool;
  s2c_running : bool;
  returned : bool
}.

Definition relayStart : Relay := mkRelay true true false.

(** The scheduler picks a goroutine that can move; the environment supplies
    what its read and its write return. *)
Inductive RelayStep : Type :=
| StepClientToServer (rd : ReadResult) (werr : error)
| StepServerToClient (rd : ReadResult) (werr : error)
| StepWaitReturns.

(** One step; [None] when the chosen goroutine cannot move. [wg.Wait()]
    returns once both goroutines have called [wg.Done()], and the deferred
    [serverConn.Close()] runs on the way out. *)
Definition relayStep (conn serverConn : Conn) (network : string)
    (r : Relay) (st : RelayStep) : option (list Event * Relay) :=
  if returned r then None
  else
    match st with
    | StepClientToServer rd werr =>
        if c2s_running r
        then
          let (evs, go) := copyClientToServer conn serverConn network rd werr in
          Some (evs, mkRelay go (s2c_running r) false)
        else None
    | StepServerToClient rd werr =>
        if s2c_running r
        then
          let (evs, go) := copyServerToClient conn serverConn network rd werr in
          Some (evs, mkRelay (c2s_running r) go false)
        else None
    | StepWaitReturns =>
        if c2s_running r || s2c_running r then None
        else Some ([EvClose serverConn], mkRelay false false true)
    end.

Fixpoint relayRun (conn serverConn : Conn) (network : string)
    (r : Relay) (steps : list RelayStep) : option (list Event * Relay) :=
  match steps with
  | [] => Some ([], r)
  | st :: rest =>
      match relayStep conn serverConn network r st with
      | None => None
      | Some (evs, r') =>
          match relayRun conn serverConn network r' rest with
          | None => None
          | Some (evs', r'') => Some ((evs ++ evs')%list, r'')
          end
      end
  end.

(** [func handleMediaConnection(conn net.Conn, network, port, kind string)].
    [dialed] is what [net.Dial] returns ([None]: an error, the function
    returns at once); [steps] is the schedule of the two goroutines. *)
Definition handleMediaConnection (conn : Conn) (network port kind : string)
    (dialed : option Conn) (steps : list RelayStep)
  : option (list Event * Relay) :=
  let dial := EvDial network (serverAddress +:+ ":" +:+ port) in
  match dialed with
  | None => Some ([dial], mkRelay false false true)
  | Some serverConn =>
      match relayRun conn serverConn network relayStart steps with
      | None => None
      | Some (evs, r) => Some (dial :: evs, r)
      end
  end.

(** *** main.go: the primary session *)

Record Session : Type := mkSession {
  conn : Conn;
  serverConn : Conn
}.

(** What the environment supplies to one iteration of the session loop:
    the two reads, the results of the two writes, and, for the side channel
    of each kind that the iteration starts, the result of its bind. *)
Record RoundEnv : Type := mkRound {
  clientRead : ReadResult;
  serverWriteErr : error;
  serverRead : ReadResult;
  clientWriteErr : error;
  listenErr : string -> error
}.

(** [handleIRTSPConnection], lines 134-146: a [SETUP] message. *)
Definition onSETUP (res : Message) (listenErr : string -> error) : M unit :=
  if String.eqb (Method res) "SETUP"
  then
    let videoHeader := mapIndex (Headers res) "v" in
    startMediaConnection videoHeader "VIDEO" (listenErr "VIDEO");;
    let audioHeader := mapIndex (Headers res) "a" in
    (if negb (String.eqb audioHeader videoHeader)
     then startMediaConnection audioHeader "AUDIO" (listenErr "AUDIO")
     else mret tt);;
    let controlHeader := mapIndex (Headers res) "c" in
    if negb (String.eqb controlHeader videoHeader)
       && negb (String.eqb controlHeader audioHeader)
    then startMediaConnection controlHeader "CONTROL" (listenErr "CONTROL")
    else mret tt
  else mret tt.

(** Lines 153-156: a [KNOCK] message. *)
Definition onKNOCK (res : Message) (listenErr : string -> error) : M unit :=
  if String.eqb (Method res) "KNOCK"
  then
    let knockHeader := mapIndex (Headers res) "p" in
    startMediaConnection (strings.TrimRight knockHeader ";") "KNOCK"
      (listenErr "KNOCK")
  else mret tt.

(** Lines 158-165: the [sc] header of a [START] message. The map is updated
    in place, so the result is the message that is forwarded. *)
Definition onSTART (res : Message) : Message :=
  if String.eqb (Method res) "START" && disableTLS
  then
    match Headers res !! "sc" with
    | Some scheme =>
        if String.eqb scheme "tls"
        then setHeaders res (<["sc" := ""]> (Headers res))
        else res
    | None => res
    end
  else res.

(** Lines 186-191: the TLS wrapping after a forwarded [START] message. *)
Definition upgradeTLS (res : Message) (s : Session) : Session :=
  if String.eqb (Method res) "START"
  then
    let conn' := if negb disableTLS then TLSServer (conn s) else conn s in
    mkSession conn' (TLSClient (serverConn s))
  else s.

(** Lines 89-117: the client-to-server half of an iteration. *)
Definition clientToServer (s : Session) (env : RoundEnv) : M (LoopCtl Session) :=
  let rd := clientRead env in
  if terminalErr (rd_err rd) then mret Break
  else
    let buffer := rd_data rd in
    if 0 <? strlen buffer
    then
      req ← lift (NewMessage buffer);
      req ← lift (deref req);
      emit (EvWrite (serverConn s) (ToBytes req));;
      if isErr (serverWriteErr env) then mret Break
      else mret (Continue s)
    else mret (Continue s).

(** Lines 119-192: the server-to-client half of an iteration. *)
Definition serverToClient (s : Session) (env : RoundEnv) : M (LoopCtl Session) :=
  let rd := serverRead env in
  if terminalErr (rd_err rd) then mret Break
  else
    let buffer := rd_data rd in
    if 0 <? strlen buffer
    then
      res ← lift (NewMessage buffer);
      res ← lift (deref res);
      onSETUP res (listenErr env);;
      onKNOCK res (listenErr env);;
      let res := onSTART res in
      emit (EvWrite (conn s) (ToBytes res));;
      if isErr (clientWriteErr env) then mret Break
      else mret (Continue (upgradeTLS res s))
    else mret (Continue s).

(** The body of the [for] loop of [handleIRTSPConnection]. *)
Definition round (s : Session) (env : RoundEnv) : M (LoopCtl Session) :=
  ctl ← clientToServer s env;
  match ctl with
  | Break => mret Break
  | Continue s => serverToClient s env
  end.

(** The loop over the rounds the environment provides: [Continue s] when they
    are used up and the session is still open. *)
Fixpoint rounds (s : Session) (envs : list RoundEnv) : M (LoopCtl Session) :=
  match envs with
  | [] => mret (Continue s)
  | env :: rest =>
      ctl ← round s env;
      match ctl with
      | Break => mret Break
      | Continue s' => rounds s' rest
      end
  end.

(** [func handleIRTSPConnection(conn net.Conn)]: the dial, the loop, and the
    two deferred [Close] calls, which run (last deferred first) when the loop
    is left, by [break] or by a panic. [dialed] is what [net.Dial] returns. *)
Definition handleIRTSPConnection (conn0 : Conn) (dialed : option Conn)
    (envs : list RoundEnv) : M (LoopCtl Session) :=
  let dial := EvDial "tcp" (serverAddress +:+ ":" +:+ serverPort) in
  match dialed with
  | None => mkM [dial; EvClose conn0] (Returns Break)
  | Some serverConn0 =>
      let run := rounds (mkSession conn0 serverConn0) envs in
      match result run with
      | Returns (Continue s) => mkM (dial :: trace run) (Returns (Continue s))
      | r =>
          mkM (dial :: trace run ++ [EvClose serverConn0; EvClose conn0])%list r
      end
  end.

End Program.

(** *** main.go: startup *)

(** [main], lines 54-56: the destination host and port, read from the value
    of PONSE_SERVER_URI. *)
Definition main_serverURI (address : string) : string * string :=
  let '(filteredAddress, _) := strings.CutPrefix address "irtsp://" in
  let '(serverAddress, serverPort, _) := strings.Cut filteredAddress ":" in
  (serverAddress, serverPort).

(** How [main] gets to its accept loop. *)
Inductive MainOutcome : Type :=
| MainFatal
| MainListen (disableTLS certificates : bool) (serverAddress serverPort : string)
    (listen : Bind).

(** [func main()], lines 26-58, up to the call of [net.Listen]: [MainFatal]
    is [log.Fatalln]; [certificates] tells whether [config.Certificates] has
    been set. [dotenvErr] and [keyPairErr] tell whether [godotenv.Load] and
    [tls.LoadX509KeyPair] (when it is called) return an error; [getenv] is
    [os.Getenv]. *)
Definition main (dotenvErr : bool) (getenv : string -> string)
    (keyPairErr : bool) : MainOutcome :=
  if dotenvErr then MainFatal
  else
    let disableTLS := 0 <? strlen (getenv "PONSE_DISABLE_TLS") in
    if negb disableTLS && keyPairErr then MainFatal
    else
      let certificates := negb disableTLS in
      let '(serverAddress, serverPort) :=
        main_serverURI (getenv "PONSE_SERVER_URI") in
      MainListen disableTLS certificates serverAddress serverPort
        (Listen "tcp" (":" +:+ serverPort)).

(** ** Vocabulary of the specification *)

(** A field that can stand on a line of the wire format: no CR, no LF. *)
Definition lineSafe (s : string) : bool :=
  negb (strings.ContainsByte s CR) && negb (strings.ContainsByte s LF).

(** A header name: also free of the [=] that ends it. *)
Definition keySafe (s : string) : bool :=
  lineSafe s && negb (strings.ContainsByte s "=").

(** A method: also free of the [/] that separates it from the code. *)
Definition methodSafe (s : string) : bool :=
  lineSafe s && negb (strings.ContainsByte s "/").

(** A well-formed message: a request ([Code = 0]) or a response ([Code > 0]),
    integers in the range of [int], and fields free of the delimiters that
    matter where they stand. The keys of a map are unique by construction. *)
Definition wellFormed (m : Message) : bool :=
  lineSafe (Version m)
  && strconv.int_range (Sequence m)
  && methodSafe (Method m)
  && (0 <=? Code m) && strconv.int_range (Code m)
  && forallb (fun hv : string * string => keySafe hv.1 && lineSafe hv.2)
       (map_to_list (Headers m)).

(** The line [ToBytes] writes for a header. *)
Definition headerLine (hv : string * string) : string :=
  if String.eqb hv.2 "" then hv.1 else hv.1 +:+ "=" +:+ hv.2.

(** The request or response line [ToBytes] writes. *)
Definition methodLine (m : Message) : string :=
  if 0 <? Code m
  then "RSP/" +:+ Method m +:+ "/" +:+ strconv.FormatInt (Code m)
  else "SET/" +:+ Method m.

(** Lines, each followed by CRLF. *)
Definition unlines (ls : list string) : string :=
  fold_right (fun l acc => l +:+ CRLF +:+ acc) "" ls.

(** [s] ends with the byte [c]. *)
Fixpoint endsWith (s : string) (c : ascii) : bool :=
  match s with
  | EmptyString => false
  | String x EmptyString => Ascii.eqb x c
  | String _ r => endsWith r c
  end.

(** The inputs on which [NewMessage] finds the lines it indexes: after the
    last element of the split and a terminator line are dropped, a version
    line and one more line remain, and a sequence line with a number is
    followed by a further line. *)
Definition decodable (s : string) : bool :=
  let l :=
    removelast (strings.Split (strings.ReplaceAll2 s CR LF (String LF "")) LF) in
  let l := if String.eqb (List.last l "") "Submit" then removelast l else l in
  match l with
  | _ :: l2 :: rest =>
      let '(seqField, seqValue, found) := strings.Cut l2 "=" in
      if found && String.eqb seqField "Seq"
      then match strconv.Atoi seqValue with
           | None => true
           | Some _ => match rest with [] => false | _ :: _ => true end
           end
      else true
  | _ => false
  end.

(** [s] ends with CRLF. *)
Fixpoint hasSuffixCRLF (s : string) : bool :=
  match s with
  | EmptyString => false
  | String x r =>
      match r with
      | String y EmptyString => Ascii.eqb x CR && Ascii.eqb y LF
      | _ => hasSuffixCRLF r
      end
  end.

(** Lines, each followed by a bare LF. *)
Definition unlinesLF (ls : list string) : string :=
  fold_right (fun l acc => l +:+ String LF acc) "" ls.

(** [n] copies of the byte [c]. *)
Fixpoint repeatByte (c : ascii) (n : nat) : string :=
  match n with
  | O => EmptyString
  | S k => String c (repeatByte c k)
  end.

(** The calls of [startMediaConnection] in a trace, in order. *)
Definition spawnCalls (evs : list Event) : list (string * string) :=
  omap (fun e => match e with
                 | EvStartMedia header kind => Some (header, kind)
                 | _ => None
                 end) evs.

(** A descriptor on which [startMediaConnection] finds its two segments. *)
Definition hasTransport (header : string) : bool :=
  strings.ContainsByte header "/".

(** The connections closed in a trace, in order. *)
Definition closes (evs : list Event) : list Conn :=
  omap (fun e => match e with EvClose c => Some c | _ => None end) evs.

(** The byte strings written with [Write] in a trace, with their connection. *)
Definition writes (evs : list Event) : list (Conn * string) :=
  omap (fun e => match e with EvWrite c b => Some (c, b) | _ => None end) evs.

(** The socket under the TLS wrappers of a connection. *)
Fixpoint socket (c : Conn) : Endpoint :=
  match c with
  | Plain e => e
  | TLSServer c' => socket c'
  | TLSClient c' => socket c'
  end.

(** How many times a connection has been wrapped by [tls.Server] or
    [tls.Client]. *)
Fixpoint tlsDepth (c : Conn) : nat :=
  match c with
  | Plain _ => 0
  | TLSServer c' => S (tlsDepth c')
  | TLSClient c' => S (tlsDepth c')
  end.

(** The destination's read of a round decodes to a [START] message. *)
Definition readsSTART (env : RoundEnv) : bool :=
  match NewMessage (rd_data (serverRead env)) with
  | Returns (Some res) => String.eqb (Method res) "START"
  | _ => false
  end.

(** The descriptors a message hands to the spawner all have a [/]. *)
Definition spawnSafe (res : Message) : bool :=
  if String.eqb (Method res) "SETUP"
  then
    let v := mapIndex (Headers res) "v" in
    let a := mapIndex (Headers res) "a" in
    let c := mapIndex (Headers res) "c" in
    hasTransport v
    && (String.eqb a v || hasTransport a)
    && (String.eqb c v || String.eqb c a || hasTransport c)
  else if String.eqb (Method res) "KNOCK"
  then hasTransport (strings.TrimRight (mapIndex (Headers res) "p") ";")
  else true.

(** What a relay goroutine forwards for a read: the bytes, unless the read
    failed or delivered nothing. *)
Definition forwarded (rd : ReadResult) : option string :=
  if terminalErr (rd_err rd) then None
  else if 0 <? strlen (rd_data rd) then Some (rd_data rd) else None.

(** The writes a schedule of the relay asks for in stream mode: what the
    client-to-server goroutine forwards goes to the destination connection,
    what the server-to-client goroutine forwards goes to the client
    connection. *)
Definition relayWrites (conn serverConn : Conn) (steps : list RelayStep)
  : list (Conn * string) :=
  omap (fun st => match st with
                  | StepClientToServer rd _ =>
                      (fun b => (serverConn, b)) <$> forwarded rd
                  | StepServerToClient rd _ =>
                      (fun b => (conn, b)) <$> forwarded rd
                  | StepWaitReturns => None
                  end) steps.

(** How often a byte occurs in a string. *)
Fixpoint countByte (s : string) (c : ascii) : nat :=
  match s with
  | EmptyString => 0
  | String x r => (if Ascii.eqb x c then 1 else 0) + countByte r c
  end.

(* ================================================================= *)
(** * Properties *)

Example Atoi_42 : strconv.Atoi "42" = Some 42. Proof. reflexivity. Qed.
Example Atoi_neg : strconv.Atoi "-7" = Some (-7). Proof. reflexivity. Qed.
Example Atoi_sign_only : strconv.Atoi "-" = None. Proof. reflexivity. Qed.
Example Atoi_junk : strconv.Atoi "4x" = None. Proof. reflexivity. Qed.
Example Atoi_big : strconv.Atoi "9223372036854775808" = None. Proof. reflexivity. Qed.
Example Atoi_min : strconv.Atoi "-9223372036854775808" = Some strconv.minInt.
Proof. reflexivity. Qed.
Example FormatInt_0 : strconv.FormatInt 0 = "0". Proof. reflexivity. Qed.
Example FormatInt_neg : strconv.FormatInt (-120) = "-120". Proof. reflexivity. Qed.
Example Split_ex : strings.Split "a/b//c" "/" = ["a"; "b"; ""; "c"].
Proof. reflexivity. Qed.
Example Split_empty : strings.Split "" "/" = [""]. Proof. reflexivity. Qed.
Example Cut_ex : strings.Cut "k=v=w" "=" = ("k", "v=w", true). Proof. reflexivity. Qed.
Example Cut_none : strings.Cut "sc" "=" = ("sc", "", false). Proof. reflexivity. Qed.
Example TrimRight_ex : strings.TrimRight "a;b;;" ";" = "a;b". Proof. reflexivity. Qed.
Example ReplaceAll2_ex :
  strings.ReplaceAll2 (String "a" (String CR (String CR (String LF "b")))) CR LF (String LF "")
  = String "a" (String CR (String LF "b")).
Proof. reflexivity. Qed.
(** ** Strings *)

Lemma string_app_cons (x : ascii) (a b : string) :
  String x a +:+ b = String x (a +:+ b).
Proof. reflexivity. Qed.

Lemma string_app_nil_l (b : string) : "" +:+ b = b.
Proof. reflexivity. Qed.

Lemma string_app_assoc (a b c : string) : (a +:+ b) +:+ c = a +:+ (b +:+ c).
Proof.
  induction a as [|x a IH]; [reflexivity |].
  rewrite !string_app_cons. now rewrite IH.
Qed.

Lemma string_app_nil_r (a : string) : a +:+ "" = a.
Proof.
  induction a as [|x a IH]; [reflexivity |].
  rewrite string_app_cons. now rewrite IH.
Qed.

Lemma ContainsByte_app (a b : string) (c : ascii) :
  strings.ContainsByte (a +:+ b) c
  = strings.ContainsByte a c || strings.ContainsByte b c.
Proof.
  induction a as [|x a IH]; [reflexivity |].
  rewrite string_app_cons. simpl. now rewrite IH, orb_assoc.
Qed.

Lemma Split_not_nil (s : string) (sep : ascii) : strings.Split s sep <> [].
Proof.
  destruct s as [|x r]; simpl; [discriminate |].
  destruct (Ascii.eqb x sep); [discriminate |].
  destruct (strings.Split r sep); discriminate.
Qed.

Lemma Split_no_sep (s : string) (sep : ascii) :
  strings.ContainsByte s sep = false -> strings.Split s sep = [s].
Proof.
  induction s as [|x r IH]; simpl; intros H; [reflexivity |].
  apply orb_false_elim in H as [Hx Hr].
  rewrite Hx, (IH Hr). reflexivity.
Qed.

Lemma Split_line (l rest : string) (sep : ascii) :
  strings.ContainsByte l sep = false ->
  strings.Split (l +:+ String sep rest) sep = l :: strings.Split rest sep.
Proof.
  induction l as [|x r IH]; intros H.
  - rewrite string_app_nil_l. simpl. now rewrite Ascii.eqb_refl.
  - simpl in H. apply orb_false_elim in H as [Hx Hr].
    rewrite string_app_cons. simpl.
    rewrite Hx, (IH Hr). reflexivity.
Qed.

Lemma ReplaceAll2_other (x : ascii) (t : string) (a b : ascii) (new : string) :
  Ascii.eqb x a = false ->
  strings.ReplaceAll2 (String x t) a b new
  = String x (strings.ReplaceAll2 t a b new).
Proof. intros H. destruct t; simpl; rewrite ?H; reflexivity. Qed.

Lemma ReplaceAll2_line (l rest : string) (a b : ascii) (new : string) :
  strings.ContainsByte l a = false ->
  strings.ReplaceAll2 (l +:+ String a (String b rest)) a b new
  = l +:+ new +:+ strings.ReplaceAll2 rest a b new.
Proof.
  induction l as [|x r IH]; intros H.
  - rewrite !string_app_nil_l. simpl. now rewrite !Ascii.eqb_refl.
  - simpl in H. apply orb_false_elim in H as [Hx Hr].
    rewrite !string_app_cons, (ReplaceAll2_other _ _ _ _ _ Hx), (IH Hr).
    reflexivity.
Qed.

Lemma Cut_found (k v : string) (c : ascii) :
  strings.ContainsByte k c = false ->
  strings.Cut (k +:+ String c v) c = (k, v, true).
Proof.
  induction k as [|x r IH]; intros H.
  - rewrite string_app_nil_l. simpl. now rewrite Ascii.eqb_refl.
  - simpl in H. apply orb_false_elim in H as [Hx Hr].
    rewrite string_app_cons. simpl.
    rewrite Hx, (IH Hr). reflexivity.
Qed.

Lemma Cut_not_found (s : string) (c : ascii) :
  strings.ContainsByte s c = false -> strings.Cut s c = (s, "", false).
Proof.
  induction s as [|x r IH]; simpl; intros H; [reflexivity |].
  apply orb_false_elim in H as [Hx Hr].
  rewrite Hx, (IH Hr). reflexivity.
Qed.

(** ** Integers in decimal *)

Lemma digits_of_uint_acc (d : Decimal.uint) (acc : positive) :
  strconv.digits (NilEmpty.string_of_uint d) (Z.pos acc)
  = Some (Z.pos (Pos.of_uint_acc d acc)).
Proof.
  revert acc. induction d; intros acc; cbn [NilEmpty.string_of_uint];
    [reflexivity | ..];
    cbn [strconv.digits]; 
    match goal with |- context [strconv.digit ?c] =>
      let v := eval vm_compute in (strconv.digit c) in
      change (strconv.digit c) with v end;
    cbn [Pos.of_uint_acc];
    match goal with |- strconv.digits _ ?z = Some (Z.pos (Pos.of_uint_acc _ ?q)) =>
      replace z with (Z.pos q) by lia end;
    apply IHd.
Qed.

Lemma digits_of_uint (d : Decimal.uint) :
  strconv.digits (NilEmpty.string_of_uint d) 0 = Some (Z.of_N (Pos.of_uint d)).
Proof.
  induction d; cbn [NilEmpty.string_of_uint];
    [reflexivity | ..];
    cbn [strconv.digits];
    match goal with |- context [strconv.digit ?c] =>
      let v := eval vm_compute in (strconv.digit c) in
      change (strconv.digit c) with v end;
    cbn [Pos.of_uint];
    match goal with |- strconv.digits _ ?z = _ =>
      let v := eval vm_compute in z in change z with v end;
    [ exact IHd | rewrite digits_of_uint_acc; reflexivity .. ].
Qed.

Lemma string_of_uint_head (d : Decimal.uint) :
  d <> Decimal.Nil ->
  exists c r, NilEmpty.string_of_uint d = String c r
              /\ Ascii.eqb c "-" = false /\ Ascii.eqb c "+" = false.
Proof.
  destruct d; [congruence | ..]; intros _; cbn [NilEmpty.string_of_uint];
    eexists _, _; (split; [reflexivity | split; reflexivity]).
Qed.

Lemma Atoi_digit_string (s : string) (n : Z) :
  (exists c r, s = String c r /\ Ascii.eqb c "-" = false /\ Ascii.eqb c "+" = false) ->
  strconv.digits s 0 = Some n ->
  strconv.int_range n = true ->
  strconv.Atoi s = Some n.
Proof.
  intros (c & r & -> & Hm & Hp) Hd Hr.
  unfold strconv.Atoi. rewrite Hm, Hp. cbn [orb].
  rewrite Hd, Hr. reflexivity.
Qed.

Lemma Atoi_FormatInt (z : Z) :
  strconv.int_range z = true -> strconv.Atoi (strconv.FormatInt z) = Some z.
Proof.
  intros Hr. unfold strconv.FormatInt.
  destruct z as [|p|p]; cbn [Z.to_int NilZero.string_of_int].
  - reflexivity.
  - pose proof (Unsigned.to_uint_nonnil p) as Hnn.
    assert (E : NilZero.string_of_uint (Pos.to_uint p)
                = NilEmpty.string_of_uint (Pos.to_uint p))
      by (unfold NilZero.string_of_uint; destruct (Pos.to_uint p); congruence).
    rewrite E. apply Atoi_digit_string.
    + now apply string_of_uint_head.
    + now rewrite digits_of_uint, Unsigned.of_to.
    + exact Hr.
  - pose proof (Unsigned.to_uint_nonnil p) as Hnn.
    assert (E : NilZero.string_of_uint (Pos.to_uint p)
                = NilEmpty.string_of_uint (Pos.to_uint p))
      by (unfold NilZero.string_of_uint; destruct (Pos.to_uint p); congruence).
    rewrite E.
    destruct (string_of_uint_head _ Hnn) as (c & r & Es & _ & _).
    unfold strconv.Atoi. cbn [Ascii.eqb Bool.eqb orb].
    change (Ascii.eqb "-" "-") with true. cbn [orb].
    pose proof (digits_of_uint (Pos.to_uint p)) as Hd.
    rewrite Unsigned.of_to in Hd. rewrite Es in *. rewrite Hd.
    change (- Z.of_N (N.pos p)) with (Z.neg p). now rewrite Hr.
Qed.

Lemma ContainsByte_of_uint (d : Decimal.uint) (c : ascii) :
  strconv.digit c = None ->
  strings.ContainsByte (NilEmpty.string_of_uint d) c = false.
Proof.
  intros Hc. induction d; cbn [NilEmpty.string_of_uint strings.ContainsByte];
    [reflexivity | ..]; rewrite IHd, orb_false_r;
    apply Ascii.eqb_neq; intros <-; vm_compute in Hc; discriminate.
Qed.

Lemma ContainsByte_FormatInt (z : Z) (c : ascii) :
  strconv.digit c = None -> Ascii.eqb "-" c = false ->
  strings.ContainsByte (strconv.FormatInt z) c = false.
Proof.
  intros Hc Hm. unfold strconv.FormatInt.
  assert (U : forall d, strings.ContainsByte (NilZero.string_of_uint d) c = false).
  { intros d. unfold NilZero.string_of_uint.
    destruct d; try apply ContainsByte_of_uint; try assumption.
    cbn [strings.ContainsByte]. rewrite orb_false_r.
    apply Ascii.eqb_neq; intros <-; vm_compute in Hc; discriminate. }
  destruct z; cbn [Z.to_int NilZero.string_of_int]; try apply U.
  cbn [strings.ContainsByte]. now rewrite Hm, U.
Qed.

(** ** Slices *)

Lemma len_app {A} (l k : list A) : slice.len (l ++ k) = slice.len l + slice.len k.
Proof. unfold slice.len. rewrite length_app. lia. Qed.

Lemma len_cons {A} (x : A) (l : list A) : slice.len (x :: l) = 1 + slice.len l.
Proof. unfold slice.len. cbn [length]. lia. Qed.

Lemma len_nonneg {A} (l : list A) : 0 <= slice.len l.
Proof. unfold slice.len. lia. Qed.

Lemma index_head {A} (x : A) (l : list A) : slice.index (x :: l) 0 = Returns x.
Proof.
  unfold slice.index. pose proof (len_nonneg l). rewrite len_cons.
  destruct (Z.leb_spec (1 + slice.len l) 0); [lia |]. reflexivity.
Qed.

Lemma index_nil {A} (i : Z) :
  slice.index (@nil A) i = Panics (IndexOutOfRange i 0).
Proof.
  unfold slice.index. change (slice.len (@nil A)) with 0.
  destruct (i <? 0) eqn:E1; [reflexivity |].
  destruct (0 <=? i) eqn:E2; [reflexivity | lia].
Qed.

Lemma index_last {A} (l : list A) (x : A) :
  slice.index (l ++ [x]) (slice.len (l ++ [x]) - 1) = Returns x.
Proof.
  unfold slice.index. rewrite len_app. change (slice.len [x]) with 1.
  pose proof (len_nonneg l).
  replace (slice.len l + 1 - 1) with (slice.len l) by lia.
  destruct (Z.ltb_spec (slice.len l) 0); [lia |].
  destruct (Z.leb_spec (slice.len l + 1) (slice.len l)); [lia |].
  cbn [orb]. unfold slice.len. rewrite Nat2Z.id.
  rewrite nth_error_app2 by lia. now rewrite Nat.sub_diag.
Qed.

Lemma to_init {A} (l : list A) (x : A) :
  slice.to (l ++ [x]) (slice.len (l ++ [x]) - 1) = Returns l.
Proof.
  unfold slice.to. rewrite len_app. change (slice.len [x]) with 1.
  pose proof (len_nonneg l).
  replace (slice.len l + 1 - 1) with (slice.len l) by lia.
  destruct (Z.ltb_spec (slice.len l) 0); [lia |].
  destruct (Z.ltb_spec (slice.len l + 1) (slice.len l)); [lia |].
  cbn [orb]. unfold slice.len. rewrite Nat2Z.id.
  rewrite firstn_app, Nat.sub_diag, firstn_all. cbn [firstn].
  now rewrite app_nil_r.
Qed.

Lemma from_tail {A} (x : A) (l : list A) : slice.from (x :: l) 1 = Returns l.
Proof.
  unfold slice.from. rewrite len_cons. pose proof (len_nonneg l).
  destruct (Z.ltb_spec (1 + slice.len l) 1); [lia |]. reflexivity.
Qed.


(** ** The codec *)

Lemma lineSafe_elim (s : string) :
  lineSafe s = true ->
  strings.ContainsByte s CR = false /\ strings.ContainsByte s LF = false.
Proof.
  unfold lineSafe. intros H. apply andb_prop in H as [H1 H2].
  split; now apply negb_true_iff.
Qed.

Lemma lineSafe_app (a b : string) :
  lineSafe a = true -> lineSafe b = true -> lineSafe (a +:+ b) = true.
Proof.
  intros [A1 A2]%lineSafe_elim [B1 B2]%lineSafe_elim.
  unfold lineSafe. now rewrite !ContainsByte_app, A1, A2, B1, B2.
Qed.

Lemma lineSafe_FormatInt (z : Z) : lineSafe (strconv.FormatInt z) = true.
Proof.
  unfold lineSafe. now rewrite !ContainsByte_FormatInt.
Qed.

Lemma unlines_cons (l : string) (ls : list string) :
  unlines (l :: ls) = l +:+ String CR (String LF (unlines ls)).
Proof. reflexivity. Qed.

Lemma unlines_app (ls ks : list string) :
  unlines (ls ++ ks) = unlines ls +:+ unlines ks.
Proof.
  induction ls as [|l ls IH]; [reflexivity |].
  cbn [app]. rewrite !unlines_cons, IH, string_app_assoc. reflexivity.
Qed.

(** Splitting what [unlines] wrote gives the lines back, and one empty
    string after the last CRLF. *)
Lemma lines_of_unlines (ls : list string) :
  Forall (fun l => lineSafe l = true) ls ->
  strings.Split (strings.ReplaceAll2 (unlines ls) CR LF (String LF "")) LF
  = ls ++ [""].
Proof.
  induction 1 as [|l ls Hl _ IH]; [reflexivity |].
  apply lineSafe_elim in Hl as [Hcr Hlf].
  rewrite unlines_cons, ReplaceAll2_line by exact Hcr.
  rewrite string_app_cons, string_app_nil_l.
  rewrite Split_line by exact Hlf. now rewrite IH.
Qed.

Section CodecProperties.

Variable range_order : gmap string string -> list (string * string).

Lemma ToBytes_headers (hs : list (string * string)) (builder : string) :
  fold_left
    (fun builder (hv : string * string) =>
       let (header, value) := hv in
       if String.eqb value ""
       then WriteString builder (header +:+ CRLF)
       else WriteString builder (header +:+ "=" +:+ value +:+ CRLF))
    hs builder
  = builder +:+ unlines (map headerLine hs).
Proof.
  revert builder. induction hs as [|[k v] hs IH]; intros builder.
  - cbn. now rewrite string_app_nil_r.
  - cbn [fold_left map]. rewrite IH, unlines_cons.
    unfold headerLine, WriteString. cbn [fst snd].
    destruct (String.eqb v ""); now rewrite !string_app_assoc.
Qed.

(** The bytes [ToBytes] writes, line by line. *)
Lemma ToBytes_unlines (m : Message) :
  ToBytes range_order m
  = unlines (Version m
             :: ("Seq=" +:+ strconv.FormatInt (Sequence m))
             :: methodLine m
             :: map headerLine (range_order (Headers m)) ++ ["Submit"]).
Proof.
  unfold ToBytes. cbv zeta. rewrite ToBytes_headers.
  rewrite !unlines_cons, unlines_app. unfold methodLine, WriteString.
  destruct (0 <? Code m); rewrite ?string_app_nil_l, ?string_app_assoc;
    reflexivity.
Qed.

End CodecProperties.

Lemma bind_Returns {A B} (a : A) (k : A -> outcome B) :
  (Returns a ≫= k) = k a.
Proof. reflexivity. Qed.

Lemma bind_Panics {A B} (p : panic) (k : A -> outcome B) :
  (Panics p ≫= k) = Panics p.
Proof. reflexivity. Qed.

Lemma decode_headerLine (hv : string * string) :
  keySafe hv.1 = true ->
  exists found, strings.Cut (headerLine hv) "=" = (hv.1, hv.2, found).
Proof.
  destruct hv as [k v]. cbn [fst snd]. unfold keySafe, headerLine.
  intros [_ Hk%negb_true_iff]%andb_prop. cbn [fst snd].
  destruct (String.eqb_spec v "") as [-> | _].
  - exists false. now apply Cut_not_found.
  - exists true. now apply Cut_found.
Qed.

Lemma decode_headers (hs : list (string * string)) (acc : gmap string string) :
  Forall (fun hv => keySafe hv.1 = true) hs ->
  fold_left
    (fun (headers : gmap string string) msgHeaderField =>
       let '(msgHeader, msgValue, _) := strings.Cut msgHeaderField "=" in
       <[msgHeader := msgValue]> headers)
    (map headerLine hs) acc
  = fold_left (fun headers hv => <[hv.1 := hv.2]> headers) hs acc.
Proof.
  intros H. revert acc. induction H as [|hv hs Hk _ IH]; intros acc;
    [reflexivity |].
  cbn [map fold_left]. destruct (decode_headerLine hv Hk) as [found ->].
  apply IH.
Qed.

Lemma fold_insert_list_to_map (hs : list (string * string)) :
  NoDup hs.*1 ->
  fold_left (fun (headers : gmap string string) hv => <[hv.1 := hv.2]> headers)
    hs ∅
  = list_to_map hs.
Proof.
  induction hs as [|[k v] hs IH] using rev_ind; intros Hnd; [reflexivity |].
  rewrite fmap_app in Hnd. apply NoDup_app in Hnd as (Hnd & Hfresh & _).
  rewrite fold_left_app. cbn [fold_left fst snd].
  rewrite IH by exact Hnd. symmetry. apply list_to_map_snoc.
  intros Hin. apply (Hfresh k Hin). cbn. left.
Qed.

Section RoundTrip.

Variable range_order : gmap string string -> list (string * string).
Hypothesis range_order_perm : forall h, range_order h ≡ₚ map_to_list h.

Lemma decode_range_order (h : gmap string string) :
  fold_left (fun (headers : gmap string string) hv => <[hv.1 := hv.2]> headers)
    (range_order h) ∅
  = h.
Proof.
  rewrite fold_insert_list_to_map.
  - rewrite <- (list_to_map_to_list h) at 2.
    apply list_to_map_proper; [| apply range_order_perm].
    rewrite (range_order_perm h). apply NoDup_fst_map_to_list.
  - rewrite (range_order_perm h). apply NoDup_fst_map_to_list.
Qed.

Lemma wellFormed_headers (m : Message) :
  wellFormed m = true ->
  Forall (fun hv : string * string => keySafe hv.1 = true /\ lineSafe hv.2 = true)
    (range_order (Headers m)).
Proof.
  unfold wellFormed. intros [_ H]%andb_prop.
  rewrite (range_order_perm (Headers m)).
  rewrite forallb_forall in H. apply Forall_forall. intros hv Hin.
  apply andb_prop, H, list_elem_of_In, Hin.
Qed.

Lemma methodSafe_slash (s : string) :
  methodSafe s = true -> strings.ContainsByte s "/" = false.
Proof. unfold methodSafe. now intros [_ H%negb_true_iff]%andb_prop. Qed.

Lemma lineSafe_headerLine (hv : string * string) :
  keySafe hv.1 = true -> lineSafe hv.2 = true -> lineSafe (headerLine hv) = true.
Proof.
  unfold keySafe, headerLine. intros [Hk _]%andb_prop Hv.
  destruct (String.eqb hv.2 ""); [exact Hk |].
  apply lineSafe_app; [exact Hk |]. now apply (lineSafe_app "=").
Qed.

Lemma lineSafe_methodLine (m : Message) :
  methodSafe (Method m) = true -> lineSafe (methodLine m) = true.
Proof.
  unfold methodSafe, methodLine. intros [Hm _]%andb_prop.
  destruct (0 <? Code m).
  - apply (lineSafe_app "RSP/"); [reflexivity |].
    apply lineSafe_app; [exact Hm |].
    apply (lineSafe_app "/"); [reflexivity | apply lineSafe_FormatInt].
  - now apply (lineSafe_app "SET/").
Qed.

(** C2. Decoding what [ToBytes] wrote gives the message back: for every
    well-formed message (a request or a response, integers in the range of
    [int], no line break in any field, no [/] in the method, no [=] in a
    header name), whatever the order in which [range] visits the headers,
    [NewMessage (ToBytes m)] returns a message with the same Version,
    Sequence, Method, Code and header mapping. *)
Theorem decode_encode_roundtrip (m : Message) :
  wellFormed m = true ->
  NewMessage (ToBytes range_order m) = Returns (Some m).
Proof.
  intros Hwf. pose proof (wellFormed_headers m Hwf) as Hh.
  unfold wellFormed in Hwf.
  apply andb_prop in Hwf as [Hwf _].
  apply andb_prop in Hwf as [Hwf Hcr].
  apply andb_prop in Hwf as [Hwf Hc0].
  apply andb_prop in Hwf as [Hwf Hm].
  apply andb_prop in Hwf as [Hv Hs].
  destruct m as [version seq method code headers].
  cbn [Version Sequence Method Code Headers] in *.
  set (hs := map headerLine (range_order headers)).
  pose (m := mkMessage version seq method code headers).
  assert (Hlines : Forall (fun l => lineSafe l = true)
            (version :: ("Seq=" +:+ strconv.FormatInt seq) :: methodLine m
             :: hs ++ ["Submit"])).
  { repeat apply Forall_cons_2.
    - exact Hv.
    - apply (lineSafe_app "Seq="); [reflexivity | apply lineSafe_FormatInt].
    - now apply lineSafe_methodLine.
    - apply Forall_app_2; [| now repeat constructor].
      subst hs. apply Forall_fmap. eapply Forall_impl; [exact Hh |].
      intros hv [? ?]. now apply lineSafe_headerLine. }
  unfold NewMessage. cbv zeta.
  rewrite ToBytes_unlines. cbn [Version Sequence Method Code Headers].
  fold hs. fold m. rewrite (lines_of_unlines _ Hlines).
  set (ls := version :: ("Seq=" +:+ strconv.FormatInt seq) :: methodLine m :: hs).
  change (version :: ("Seq=" +:+ strconv.FormatInt seq) :: methodLine m
          :: hs ++ ["Submit"]) with (ls ++ ["Submit"]).
  destruct (Z.leb_spec (slice.len ((ls ++ ["Submit"]) ++ [""])) 0) as [Hle | _].
  { rewrite !len_app in Hle. pose proof (len_nonneg ls).
    change (slice.len ["Submit"]) with 1 in Hle.
    change (slice.len [""]) with 1 in Hle. lia. }
  rewrite to_init, bind_Returns, index_last, bind_Returns.
  change (String.eqb "Submit" "Submit") with true. cbv iota.
  rewrite to_init, bind_Returns. subst ls.
  rewrite index_head, bind_Returns, from_tail, bind_Returns.
  unfold NewMessage_sequence. rewrite index_head, bind_Returns.
  change ("Seq=" +:+ strconv.FormatInt seq)
    with ("Seq" +:+ String "=" (strconv.FormatInt seq)).
  rewrite Cut_found by reflexivity.
  change (true && String.eqb "Seq" "Seq") with true. cbv iota.
  rewrite (Atoi_FormatInt _ Hs), from_tail, bind_Returns.
  unfold NewMessage_method. rewrite index_head, bind_Returns.
  apply methodSafe_slash in Hm as Hslash.
  unfold methodLine, m. cbn [Code Method].
  destruct (Z.ltb_spec 0 code) as [Hpos | Hzero].
  - change ("RSP/" +:+ method +:+ "/" +:+ strconv.FormatInt code)
      with ("RSP" +:+ String "/" (method +:+ String "/" (strconv.FormatInt code))).
    rewrite Cut_found by reflexivity.
    change (true && String.eqb "RSP" "SET") with false.
    change (true && String.eqb "RSP" "RSP") with true. cbv iota.
    rewrite bind_Returns. cbv iota beta.
    rewrite (Cut_found _ _ _ Hslash), (Atoi_FormatInt _ Hcr).
    rewrite from_tail, bind_Returns.
    unfold NewMessage_headers, setCode, setMethod, setSequence, setVersion,
      setHeaders. cbn [Version Sequence Method Code Headers].
    subst hs. rewrite decode_headers, decode_range_order; [reflexivity |].
    eapply Forall_impl; [exact Hh |]. now intros hv [? ?].
  - assert (code = 0) as -> by lia.
    change ("SET/" +:+ method) with ("SET" +:+ String "/" method).
    rewrite Cut_found by reflexivity.
    change (true && String.eqb "SET" "SET") with true.
    change (true && String.eqb "SET" "RSP") with false. cbv iota.
    rewrite from_tail, !bind_Returns. cbv iota beta.
    unfold NewMessage_headers, setCode, setMethod, setSequence, setVersion,
      setHeaders. cbn [Version Sequence Method Code Headers].
    subst hs. rewrite decode_headers, decode_range_order; [reflexivity |].
    eapply Forall_impl; [exact Hh |]. now intros hv [? ?].
Qed.

End RoundTrip.

(** The well-formed response used as a running example. *)
Lemma decode_encode_roundtrip_witness :
  let m := mkMessage "iRTSP/1.21" 7 "START" 200
             (<["sc" := "tls"]> (<["t" := ""]> ∅)) in
  wellFormed m = true
  /\ NewMessage (ToBytes map_to_list m) = Returns (Some m).
Proof.
  intros m. split; [vm_compute; reflexivity |].
  apply (decode_encode_roundtrip map_to_list).
  - intros h. reflexivity.
  - vm_compute. reflexivity.
Defined.

(** The message of the protocol documentation, and the same message without
    its terminator line: both decode, to the same request. *)
Example NewMessage_documented_request :
  NewMessage (unlines ["iRTSP/1.21"; "Seq=0"; "SET/START"; "sc"; "t=1429051";
                       "Submit"])
  = Returns (Some (mkMessage "iRTSP/1.21" 0 "START" 0
                     (<["sc" := ""]> (<["t" := "1429051"]> ∅)))).
Proof. vm_compute. reflexivity. Qed.

Example NewMessage_without_terminator :
  NewMessage (unlines ["iRTSP/1.21"; "Seq=0"; "SET/START"; "sc"; "t=1429051"])
  = Returns (Some (mkMessage "iRTSP/1.21" 0 "START" 0
                     (<["sc" := ""]> (<["t" := "1429051"]> ∅)))).
Proof. vm_compute. reflexivity. Qed.

(** A sequence value or a response code that is not a number stops the
    decoding with what has been read so far. *)
Example NewMessage_bad_sequence :
  NewMessage (unlines ["iRTSP/1.21"; "Seq=one"; "SET/START"; "Submit"])
  = Returns (Some (mkMessage "iRTSP/1.21" 0 "" 0 ∅)).
Proof. vm_compute. reflexivity. Qed.

Example NewMessage_bad_code :
  NewMessage (unlines ["iRTSP/1.21"; "Seq=4"; "RSP/START/ok"; "sc=tls"; "Submit"])
  = Returns (Some (mkMessage "iRTSP/1.21" 4 "START" 0 ∅)).
Proof. vm_compute. reflexivity. Qed.

Example hasSuffixCRLF_ex :
  hasSuffixCRLF ("Submit" +:+ CRLF) = true
  /\ hasSuffixCRLF ("Submit" +:+ String LF "") = false
  /\ hasSuffixCRLF "" = false.
Proof. repeat split. Qed.

(** ** Decoding input that is not a complete message *)

Lemma ReplaceAll2_match (r : string) (a b : ascii) (new : string) :
  strings.ReplaceAll2 (String a (String b r)) a b new
  = new +:+ strings.ReplaceAll2 r a b new.
Proof. simpl. now rewrite !Ascii.eqb_refl. Qed.

Lemma ReplaceAll2_half (y : ascii) (r : string) (a b : ascii) (new : string) :
  Ascii.eqb y b = false ->
  strings.ReplaceAll2 (String a (String y r)) a b new
  = String a (strings.ReplaceAll2 (String y r) a b new).
Proof.
  intros H. cbn [strings.ReplaceAll2]. rewrite H, andb_false_r. reflexivity.
Qed.

Lemma ReplaceAll2_no_LF (s : string) :
  strings.ContainsByte s LF = false ->
  strings.ReplaceAll2 s CR LF (String LF "") = s.
Proof.
  induction s as [|x t IH]; [reflexivity |].
  cbn [strings.ContainsByte]. intros [Hx Ht]%orb_false_elim.
  destruct t as [|y r]; [reflexivity |].
  cbn [strings.ContainsByte] in Ht. apply orb_false_elim in Ht as Hy.
  destruct Hy as [Hy _].
  destruct (Ascii.eqb_spec x CR) as [-> | Hne].
  - rewrite ReplaceAll2_half by exact Hy. now rewrite IH.
  - rewrite ReplaceAll2_other by now apply Ascii.eqb_neq. now rewrite IH.
Qed.

(** Whatever follows a line break passes through the CRLF replacement on its
    own: the text before it is rewritten to some [q], the same for every
    continuation that has no further line break. *)
Lemma ReplaceAll2_before_LF (pre : string) :
  exists q, forall last,
    strings.ContainsByte last LF = false ->
    strings.ReplaceAll2 (pre +:+ String LF last) CR LF (String LF "")
    = q +:+ String LF last.
Proof.
  assert (H : (exists q, forall last,
                 strings.ContainsByte last LF = false ->
                 strings.ReplaceAll2 (pre +:+ String LF last) CR LF (String LF "")
                 = q +:+ String LF last)
              /\ (forall x, exists q, forall last,
                 strings.ContainsByte last LF = false ->
                 strings.ReplaceAll2 (String x pre +:+ String LF last) CR LF
                   (String LF "")
                 = q +:+ String LF last)); [| exact (proj1 H)].
  induction pre as [|y r [IH0 IH1]].
  - assert (B : forall last, strings.ContainsByte last LF = false ->
                strings.ReplaceAll2 (String LF last) CR LF (String LF "")
                = String LF last).
    { intros last Hl. rewrite ReplaceAll2_other by reflexivity.
      now rewrite ReplaceAll2_no_LF. }
    split.
    + exists "". intros last Hl. rewrite !string_app_nil_l. now apply B.
    + intros x. destruct (Ascii.eqb_spec x CR) as [-> | Hne].
      * exists "". intros last Hl.
        rewrite string_app_cons, !string_app_nil_l, ReplaceAll2_match.
        now rewrite ReplaceAll2_no_LF.
      * exists (String x ""). intros last Hl.
        rewrite !string_app_cons, !string_app_nil_l.
        rewrite ReplaceAll2_other by now apply Ascii.eqb_neq.
        now rewrite B.
  - split; [apply IH1 |].
    intros x. destruct (Ascii.eqb_spec x CR) as [-> | Hne].
    + destruct (Ascii.eqb_spec y LF) as [-> | Hy].
      * destruct IH0 as [q Hq]. exists (String LF q). intros last Hl.
        rewrite !string_app_cons, ReplaceAll2_match, Hq by exact Hl.
        reflexivity.
      * destruct (IH1 y) as [q Hq]. exists (String CR q). intros last Hl.
        rewrite !string_app_cons, ReplaceAll2_half by now apply Ascii.eqb_neq.
        rewrite <- (string_app_cons y r), Hq by exact Hl. reflexivity.
    + destruct (IH1 y) as [q Hq]. exists (String x q). intros last Hl.
      rewrite string_app_cons.
      rewrite ReplaceAll2_other by now apply Ascii.eqb_neq.
      now rewrite Hq.
Qed.

Lemma Split_app (a b : string) (sep : ascii) :
  strings.Split (a +:+ String sep b) sep
  = strings.Split a sep ++ strings.Split b sep.
Proof.
  induction a as [|x t IH].
  - rewrite string_app_nil_l. simpl. now rewrite Ascii.eqb_refl.
  - rewrite string_app_cons. simpl. rewrite IH.
    destruct (Ascii.eqb x sep); [reflexivity |].
    pose proof (Split_not_nil t sep).
    destruct (strings.Split t sep); [congruence | reflexivity].
Qed.

(** The lines [NewMessage] parses, after it has dropped the last element of
    the split: they do not depend on what follows the last line break. *)
Lemma lines_before_last_LF (pre : string) :
  exists ls, forall last,
    strings.ContainsByte last LF = false ->
    strings.Split
      (strings.ReplaceAll2 (pre +:+ String LF last) CR LF (String LF "")) LF
    = ls ++ [last].
Proof.
  destruct (ReplaceAll2_before_LF pre) as [q Hq].
  exists (strings.Split q LF). intros last Hl.
  now rewrite Hq, Split_app, (Split_no_sep last) by exact Hl.
Qed.

(** C10, as the code has it. [NewMessage] drops the last element of the
    split unconditionally, and a line break is a LF, alone or after a CR:
    what follows the last line break of the input never reaches the parser.
    An input decodes exactly as the same input cut after its last line
    break, and an input with no line break at all decodes as the empty
    input. *)
Theorem NewMessage_drops_last_line (pre last : string) :
  strings.ContainsByte last LF = false ->
  NewMessage (pre +:+ String LF last) = NewMessage (pre +:+ String LF "")
  /\ NewMessage last = NewMessage "".
Proof.
  intros Hl. split.
  - destruct (lines_before_last_LF pre) as [ls Hls].
    unfold NewMessage. cbv zeta.
    rewrite (Hls last Hl), (Hls "" eq_refl).
    rewrite !to_init, !len_app.
    change (slice.len [last]) with 1. change (slice.len [""]) with 1.
    reflexivity.
  - unfold NewMessage. cbv zeta.
    rewrite (ReplaceAll2_no_LF last Hl), (Split_no_sep last LF Hl).
    reflexivity.
Qed.

(** A response whose last header is not followed by CRLF loses that header;
    a message with no line break at all leaves nothing to parse. *)
Lemma NewMessage_drops_last_line_witness :
  strings.ContainsByte "c=z" LF = false
  /\ (NewMessage (unlines ["iRTSP/1.21"; "Seq=1"; "RSP/SETUP/200"; "v=x"]
                  +:+ "c=z")
      = Returns (Some (mkMessage "iRTSP/1.21" 1 "SETUP" 200 (<["v" := "x"]> ∅))))
  /\ NewMessage "c=z" = Panics (IndexOutOfRange (-1) 0).
Proof.
  pose proof (NewMessage_drops_last_line
                ("iRTSP/1.21" +:+ CRLF +:+ "Seq=1" +:+ CRLF
                 +:+ "RSP/SETUP/200" +:+ CRLF +:+ "v=x" +:+ String CR "")
                "c=z" eq_refl) as [H1 H2].
  split; [reflexivity |]. split.
  - etransitivity; [exact H1 |]. vm_compute. reflexivity.
  - etransitivity; [exact H2 |]. vm_compute. reflexivity.
Defined.

(** C10, as the claim has it, fails on input whose lines end in a bare LF:
    it does not end with CRLF, and its last header is parsed. *)
Lemma NewMessage_bare_LF_counterexample :
  let input := unlinesLF ["iRTSP/1.21"; "Seq=1"; "SET/START"; "t=1429051"] in
  hasSuffixCRLF input = false
  /\ NewMessage input
     = Returns (Some (mkMessage "iRTSP/1.21" 1 "START" 0
                        (<["t" := "1429051"]> ∅))).
Proof. split; vm_compute; reflexivity. Qed.

(** Input without any line break: the only element of the split is dropped,
    and the check for the terminator line indexes an empty slice. *)
Lemma NewMessage_no_line_break (s : string) :
  strings.ContainsByte s LF = false ->
  NewMessage s = Panics (IndexOutOfRange (-1) 0).
Proof.
  intros H. unfold NewMessage. cbv zeta.
  rewrite (ReplaceAll2_no_LF s H), (Split_no_sep s LF H). reflexivity.
Qed.

(** ** Where decoding returns and where it panics *)

Lemma list_snoc_cases {A} (l : list A) : l = [] \/ exists k x, l = k ++ [x].
Proof.
  induction l as [|a l IH] using rev_ind; [now left | right; eauto].
Qed.

Lemma NewMessage_headers_returns (msg : Message) (ls : list string) :
  exists m, NewMessage_headers msg ls = Returns (Some m).
Proof. unfold NewMessage_headers. eauto. Qed.

Lemma NewMessage_method_returns (msg : Message) (l : string) (ls : list string) :
  exists m, NewMessage_method msg (l :: ls) = Returns (Some m).
Proof.
  unfold NewMessage_method. rewrite index_head, bind_Returns.
  destruct (strings.Cut l "/") as [[msgSource msgMethod] found].
  destruct (String.eqb_spec msgSource "SET") as [-> | Hne].
  - change (String.eqb "SET" "RSP") with false. rewrite andb_false_r.
    destruct found; cbn [andb]; rewrite ?from_tail;
      cbn [mbind mret outcome_bind outcome_ret];
      apply NewMessage_headers_returns.
  - rewrite andb_false_r. cbn [mbind mret outcome_bind outcome_ret].
    destruct (found && String.eqb msgSource "RSP");
      [| apply NewMessage_headers_returns].
    destruct (strings.Cut msgMethod "/") as [[method codeString] found'].
    destruct found'.
    + destruct (strconv.Atoi codeString) as [code |]; [| eauto].
      rewrite from_tail, bind_Returns. apply NewMessage_headers_returns.
    + rewrite from_tail, bind_Returns. apply NewMessage_headers_returns.
Qed.

Lemma NewMessage_sequence_cases (msg : Message) (ls : list string) :
  match ls with
  | [] => NewMessage_sequence msg ls = Panics (IndexOutOfRange 0 0)
  | l2 :: rest =>
      let '(seqField, seqValue, found) := strings.Cut l2 "=" in
      if found && String.eqb seqField "Seq"
      then match strconv.Atoi seqValue with
           | None => NewMessage_sequence msg ls = Returns (Some msg)
           | Some _ =>
               match rest with
               | [] => NewMessage_sequence msg ls = Panics (IndexOutOfRange 0 0)
               | _ :: _ => exists m, NewMessage_sequence msg ls = Returns (Some m)
               end
           end
      else exists m, NewMessage_sequence msg ls = Returns (Some m)
  end.
Proof.
  destruct ls as [|l2 rest]; [reflexivity |].
  unfold NewMessage_sequence. rewrite index_head, bind_Returns.
  destruct (strings.Cut l2 "=") as [[seqField seqValue] found].
  destruct (found && String.eqb seqField "Seq");
    [| apply NewMessage_method_returns].
  destruct (strconv.Atoi seqValue) as [seq |]; [| reflexivity].
  rewrite from_tail, bind_Returns.
  destruct rest as [|l3 rest]; [reflexivity | apply NewMessage_method_returns].
Qed.

(** [NewMessage] returns a message exactly on the decodable inputs and
    panics on all others; it never returns nil. *)
Lemma NewMessage_decodable (s : string) :
  if decodable s
  then exists m, NewMessage s = Returns (Some m)
  else exists p, NewMessage s = Panics p.
Proof.
  unfold decodable, NewMessage. cbv zeta.
  set (lines := strings.Split (strings.ReplaceAll2 s CR LF (String LF "")) LF).
  destruct (list_snoc_cases lines) as [E | (l & x & E)].
  { exfalso. exact (Split_not_nil _ _ E). }
  rewrite E, removelast_last.
  destruct (Z.leb_spec (slice.len (l ++ [x])) 0) as [Hle | _].
  { rewrite len_app in Hle. pose proof (len_nonneg l).
    change (slice.len [x]) with 1 in Hle. lia. }
  rewrite to_init, bind_Returns.
  assert (G : forall l' : list string,
    if match l' with
       | _ :: l2 :: rest =>
           let '(seqField, seqValue, found) := strings.Cut l2 "=" in
           if found && String.eqb seqField "Seq"
           then match strconv.Atoi seqValue with
                | None => true
                | Some _ => match rest with [] => false | _ :: _ => true end
                end
           else true
       | _ => false
       end
    then exists m,
      (version ← slice.index l' 0;
       messageLines ← slice.from l' 1;
       NewMessage_sequence (setVersion (mkMessage "" 0 "" 0 ∅) version)
         messageLines) = Returns (Some m)
    else exists p,
      (version ← slice.index l' 0;
       messageLines ← slice.from l' 1;
       NewMessage_sequence (setVersion (mkMessage "" 0 "" 0 ∅) version)
         messageLines) = Panics p).
  { intros [|v ls]; [cbn; eauto |].
    rewrite index_head, bind_Returns, from_tail, bind_Returns.
    pose proof (NewMessage_sequence_cases
                  (setVersion (mkMessage "" 0 "" 0 ∅) v) ls) as H.
    destruct ls as [|l2 rest]; [eauto |].
    destruct (strings.Cut l2 "=") as [[seqField seqValue] found].
    destruct (found && String.eqb seqField "Seq"); [| exact H].
    destruct (strconv.Atoi seqValue); [| eauto].
    destruct rest; eauto. }
  destruct (list_snoc_cases l) as [-> | (l1 & y & ->)].
  { cbn. eauto. }
  rewrite index_last, bind_Returns, last_last.
  destruct (String.eqb y "Submit").
  - rewrite removelast_last, to_init, bind_Returns. apply G.
  - rewrite bind_Returns. apply G.
Qed.

(** C1 (the code departs from it). [NewMessage] indexes [messageLines]
    without checking its length: on input with no line break, on a lone
    terminator line, and on input that stops after the version line or after
    the sequence line, it panics instead of returning a partial message. *)
Theorem NewMessage_panics_on_truncated_input :
  NewMessage "iRTSP/1.21" = Panics (IndexOutOfRange (-1) 0)
  /\ NewMessage ("Submit" +:+ CRLF) = Panics (IndexOutOfRange 0 0)
  /\ NewMessage ("iRTSP/1.21" +:+ CRLF) = Panics (IndexOutOfRange 0 0)
  /\ NewMessage ("iRTSP/1.21" +:+ CRLF +:+ "Seq=1" +:+ CRLF)
     = Panics (IndexOutOfRange 0 0)
  /\ NewMessage ("iRTSP/1.21" +:+ CRLF +:+ "Seq=1" +:+ CRLF +:+ "Submit" +:+ CRLF)
     = Panics (IndexOutOfRange 0 0).
Proof. repeat split; vm_compute; reflexivity. Qed.

(** ** The trace monad *)

Lemma M_bind_Returns {A B} (x : M A) (a : A) (k : A -> M B) :
  result x = Returns a ->
  x ≫= k = mkM (trace x ++ trace (k a)) (result (k a)).
Proof. intros H. unfold mbind, M_bind. now rewrite H. Qed.

Lemma M_bind_Panics {A B} (x : M A) (p : panic) (k : A -> M B) :
  result x = Panics p -> x ≫= k = mkM (trace x) (Panics p).
Proof. intros H. unfold mbind, M_bind. now rewrite H. Qed.

Lemma M_eta {A} (x : M A) : mkM (trace x) (result x) = x.
Proof. now destruct x. Qed.

Lemma M_bind_mret {A B} (a : A) (k : A -> M B) : mret a ≫= k = k a.
Proof. unfold mbind, mret, M_bind, M_ret. cbn. apply M_eta. Qed.

Lemma M_bind_lift_Returns {A B} (a : A) (k : A -> M B) :
  lift (Returns a) ≫= k = k a.
Proof. apply (M_bind_mret a k). Qed.

Lemma M_bind_emit {B} (e : Event) (k : unit -> M B) :
  emit e ≫= k = mkM (e :: trace (k tt)) (result (k tt)).
Proof. reflexivity. Qed.

(** ** The side-channel spawner *)

Lemma mapIndex_None (h : gmap string string) (k : string) :
  h !! k = None -> mapIndex h k = "".
Proof. unfold mapIndex. now intros ->. Qed.

Lemma mapIndex_Some (h : gmap string string) (k v : string) :
  h !! k = Some v -> mapIndex h k = v.
Proof. unfold mapIndex. now intros ->. Qed.

Lemma Split_two_segments (s : string) (sep : ascii) :
  strings.ContainsByte s sep = true -> 2 <= slice.len (strings.Split s sep).
Proof.
  induction s as [|x r IH]; [discriminate |].
  cbn [strings.ContainsByte strings.Split]. intros H.
  destruct (Ascii.eqb x sep).
  - rewrite len_cons. pose proof (Split_not_nil r sep).
    destruct (strings.Split r sep) as [|h t]; [congruence |].
    rewrite len_cons. pose proof (len_nonneg t). lia.
  - cbn [orb] in H. specialize (IH H).
    destruct (strings.Split r sep) as [|h t]; [unfold slice.len in IH; cbn [length] in IH; lia |].
    rewrite len_cons in *. lia.
Qed.

Lemma index_in_range {A} (l : list A) (i : Z) :
  0 <= i < slice.len l -> exists x, slice.index l i = Returns x.
Proof.
  intros [H0 H1]. unfold slice.index.
  destruct (Z.ltb_spec i 0); [lia |].
  destruct (Z.leb_spec (slice.len l) i); [lia |]. cbn [orb].
  destruct (nth_error l (Z.to_nat i)) as [x |] eqn:E; [eauto |].
  apply nth_error_None in E. unfold slice.len in H1. lia.
Qed.

(** On a descriptor with a [/] the spawner finds both segments and returns:
    its trace is the call, followed by at most one bind. *)
Lemma startMediaConnection_returns (header kind : string) (bindErr : error) :
  hasTransport header = true ->
  result (startMediaConnection header kind bindErr) = Returns tt
  /\ spawnCalls (trace (startMediaConnection header kind bindErr))
     = [(header, kind)].
Proof.
  intros H. apply Split_two_segments in H.
  unfold startMediaConnection. rewrite M_bind_emit.
  set (hs := strings.Split header "/") in *.
  assert (H1 : 0 <= slice.len hs - 1 < slice.len hs) by lia.
  assert (H2 : 0 <= slice.len hs - 2 < slice.len hs) by lia.
  destruct (index_in_range hs _ H1) as [port ->].
  destruct (index_in_range hs _ H2) as [network ->].
  rewrite !M_bind_lift_Returns.
  destruct (String.eqb network "ust").
  - destruct (strconv.Atoi port), (isErr bindErr); split; reflexivity.
  - destruct (isErr bindErr); split; reflexivity.
Qed.

(** The descriptors of the protocol documentation, when the bind succeeds,
    and a bind that fails. *)
Example startMediaConnection_tcp :
  startMediaConnection "iDataChunk/unicast/tcp/40603" "VIDEO" ErrNil
  = mkM [EvStartMedia "iDataChunk/unicast/tcp/40603" "VIDEO";
         EvBind (Listen "tcp" ":40603") "tcp" "40603" "VIDEO"] (Returns tt).
Proof. reflexivity. Qed.

Example startMediaConnection_ust_40604 :
  startMediaConnection "iDataChunk/unicast/ust/40604" "AUDIO" ErrNil
  = mkM [EvStartMedia "iDataChunk/unicast/ust/40604" "AUDIO";
         EvBind (ListenUDP "udp" 40604) "udp" "40604" "AUDIO"] (Returns tt).
Proof. reflexivity. Qed.

Example startMediaConnection_ust_bad_port :
  startMediaConnection "iDataChunk/unicast/ust/http" "AUDIO" ErrNil
  = mkM [EvStartMedia "iDataChunk/unicast/ust/http" "AUDIO"] (Returns tt).
Proof. reflexivity. Qed.

Example startMediaConnection_knock :
  startMediaConnection (strings.TrimRight "iDataChunk/unicast/tcp/40605;" ";")
    "KNOCK" ErrNil
  = mkM [EvStartMedia "iDataChunk/unicast/tcp/40605" "KNOCK";
         EvBind (Listen "tcp" ":40605") "tcp" "40605" "KNOCK"] (Returns tt).
Proof. reflexivity. Qed.

Example startMediaConnection_port_in_use :
  startMediaConnection "iDataChunk/unicast/tcp/40603" "VIDEO" ErrOther
  = mkM [EvStartMedia "iDataChunk/unicast/tcp/40603" "VIDEO"] (Returns tt).
Proof. reflexivity. Qed.

(** C9. A descriptor without [/] splits into a single segment, and taking
    the second-to-last one is an index of [-1]: the spawner panics, for every
    such descriptor, the empty string included. A [SETUP] message without the
    [v] header hands the spawner the empty string, so the panic happens in
    the session itself and ends it before anything is forwarded. *)
Theorem startMediaConnection_panics_without_separator
    (range_order : gmap string string -> list (string * string))
    (disableTLS : bool) (header kind : string) (bindErr : error)
    (s : Session) (env : RoundEnv) (res : Message) :
  (hasTransport header = false ->
   startMediaConnection header kind bindErr
   = mkM [EvStartMedia header kind] (Panics (IndexOutOfRange (-1) 1)))
  /\ (terminalErr (rd_err (serverRead env)) = false ->
      NewMessage (rd_data (serverRead env)) = Returns (Some res) ->
      Method res = "SETUP" ->
      Headers res !! "v" = None ->
      serverToClient range_order disableTLS s env
      = mkM [EvStartMedia "" "VIDEO"] (Panics (IndexOutOfRange (-1) 1))).
Proof.
  assert (P : forall h k e, hasTransport h = false ->
              startMediaConnection h k e
              = mkM [EvStartMedia h k] (Panics (IndexOutOfRange (-1) 1))).
  { intros h k e Hn. unfold startMediaConnection.
    rewrite (Split_no_sep h "/" Hn). reflexivity. }
  split; [now apply P |].
  intros Hrd Hdec Hm Hv.
  unfold serverToClient. rewrite Hrd.
  destruct (0 <? strlen (rd_data (serverRead env))) eqn:Hlen.
  - rewrite Hdec, M_bind_lift_Returns. cbn [deref].
    rewrite M_bind_lift_Returns. unfold onSETUP.
    rewrite Hm. change (String.eqb "SETUP" "SETUP") with true.
    cbv iota. rewrite (mapIndex_None _ _ Hv), (P "" "VIDEO" (listenErr env "VIDEO") eq_refl).
    reflexivity.
  - exfalso. destruct (rd_data (serverRead env)); [| discriminate Hlen].
    vm_compute in Hdec. discriminate Hdec.
Qed.

(** A port alone is not a descriptor; a [SETUP] response that names only the
    audio channel crashes the session. *)
Lemma startMediaConnection_panics_without_separator_witness :
  let env := mkRound (mkRead "" None ErrDeadlineExceeded) ErrNil
               (mkRead (unlines ["iRTSP/1.21"; "Seq=2"; "RSP/SETUP/200";
                                 "a=iDataChunk/unicast/tcp/40603"; "Submit"])
                  None ErrNil) ErrNil (fun _ => ErrNil) in
  let s := mkSession (Plain (mkEndpoint "client" None))
             (Plain (mkEndpoint "server" None)) in
  startMediaConnection "40603" "VIDEO" ErrNil
  = mkM [EvStartMedia "40603" "VIDEO"] (Panics (IndexOutOfRange (-1) 1))
  /\ serverToClient map_to_list false s env
     = mkM [EvStartMedia "" "VIDEO"] (Panics (IndexOutOfRange (-1) 1)).
Proof.
  intros env s.
  destruct (startMediaConnection_panics_without_separator map_to_list false
              "40603" "VIDEO" ErrNil s env
              (mkMessage "iRTSP/1.21" 2 "SETUP" 200
                 (<["a" := "iDataChunk/unicast/tcp/40603"]> ∅)))
    as [H1 H2].
  split.
  - apply H1. reflexivity.
  - apply H2; [reflexivity | vm_compute; reflexivity | reflexivity
              | vm_compute; reflexivity].
Defined.

Section Crash.

Variable range_order : gmap string string -> list (string * string).
Variables (serverAddress serverPort : string) (disableTLS : bool).

(** A panic in the server-to-client half of an iteration is a panic of the
    session: no later iteration runs, and only the deferred [Close] calls
    follow. *)
Lemma handleIRTSPConnection_panics (conn0 serverConn0 : Conn) (env : RoundEnv)
    (rest : list RoundEnv) (p : panic) :
  let s := mkSession conn0 serverConn0 in
  result (clientToServer range_order s env) = Returns (Continue s) ->
  result (serverToClient range_order disableTLS s env) = Panics p ->
  handleIRTSPConnection range_order serverAddress serverPort disableTLS
    conn0 (Some serverConn0) (env :: rest)
  = mkM (EvDial "tcp" (serverAddress +:+ ":" +:+ serverPort)
           :: trace (clientToServer range_order s env)
           ++ trace (serverToClient range_order disableTLS s env)
           ++ [EvClose serverConn0; EvClose conn0])
      (Panics p).
Proof.
  intros s Hc Hs. unfold handleIRTSPConnection. fold s. cbn [rounds].
  assert (Hr : round range_order disableTLS s env
               = mkM (trace (clientToServer range_order s env)
                      ++ trace (serverToClient range_order disableTLS s env))
                   (Panics p)).
  { unfold round. rewrite (M_bind_Returns _ _ _ Hc), Hs. reflexivity. }
  rewrite (M_bind_Panics _ p _) by now rewrite Hr.
  rewrite Hr. cbn [result trace]. now rewrite <- app_assoc.
Qed.

End Crash.

(** ** The primary session: a message from the destination *)

Lemma spawnCalls_app (evs evs' : list Event) :
  spawnCalls (evs ++ evs') = spawnCalls evs ++ spawnCalls evs'.
Proof. unfold spawnCalls. apply omap_app. Qed.

(** Whether it returns or panics, a call of the spawner shows in the trace as
    exactly one call. *)
Lemma startMediaConnection_calls (header kind : string) (bindErr : error) :
  spawnCalls (trace (startMediaConnection header kind bindErr))
  = [(header, kind)].
Proof.
  unfold startMediaConnection. rewrite M_bind_emit. cbn [trace spawnCalls omap].
  f_equal.
  destruct (slice.index _ (_ - 1)) as [port | p]; [| reflexivity].
  rewrite M_bind_lift_Returns.
  destruct (slice.index _ (_ - 2)) as [network | p]; [| reflexivity].
  rewrite M_bind_lift_Returns.
  destruct (String.eqb network "ust"); [| now destruct (isErr bindErr)].
  destruct (strconv.Atoi port), (isErr bindErr); reflexivity.
Qed.

Lemma onSETUP_other (res : Message) (bindErr : string -> error) :
  String.eqb (Method res) "SETUP" = false -> onSETUP res bindErr = mret tt.
Proof. unfold onSETUP. now intros ->. Qed.

Lemma onKNOCK_other (res : Message) (bindErr : string -> error) :
  String.eqb (Method res) "KNOCK" = false -> onKNOCK res bindErr = mret tt.
Proof. unfold onKNOCK. now intros ->. Qed.

Section SessionProperties.

Variable range_order : gmap string string -> list (string * string).
Variable disableTLS : bool.

(** Once the read has delivered bytes that decode to [res], the rest of the
    iteration is the side effects of [res], the write, and the upgrade. *)
Lemma serverToClient_decoded (s : Session) (env : RoundEnv) (res : Message) :
  terminalErr (rd_err (serverRead env)) = false ->
  NewMessage (rd_data (serverRead env)) = Returns (Some res) ->
  serverToClient range_order disableTLS s env
  = (onSETUP res (listenErr env);;
     onKNOCK res (listenErr env);;
     emit (EvWrite (conn s) (ToBytes range_order (onSTART disableTLS res)));;
     if isErr (clientWriteErr env) then mret Break
     else mret (Continue (upgradeTLS disableTLS (onSTART disableTLS res) s))).
Proof.
  intros Hrd Hdec. unfold serverToClient. rewrite Hrd.
  destruct (0 <? strlen (rd_data (serverRead env))) eqn:Hlen.
  - rewrite Hdec, M_bind_lift_Returns. cbn [deref].
    now rewrite M_bind_lift_Returns.
  - exfalso. destruct (rd_data (serverRead env)); [| discriminate Hlen].
    vm_compute in Hdec. discriminate Hdec.
Qed.

Lemma Method_onSTART (res : Message) :
  Method (onSTART disableTLS res) = Method res.
Proof.
  unfold onSTART.
  destruct (String.eqb (Method res) "START" && disableTLS); [| reflexivity].
  destruct (Headers res !! "sc") as [scheme |]; [| reflexivity].
  destruct (String.eqb scheme "tls"); reflexivity.
Qed.

(** A [START] message from the destination: no side channel, one write. *)
Lemma serverToClient_START (s : Session) (env : RoundEnv) (res : Message) :
  terminalErr (rd_err (serverRead env)) = false ->
  NewMessage (rd_data (serverRead env)) = Returns (Some res) ->
  Method res = "START" ->
  serverToClient range_order disableTLS s env
  = mkM [EvWrite (conn s) (ToBytes range_order (onSTART disableTLS res))]
      (Returns (if isErr (clientWriteErr env) then Break
                else Continue
                       (mkSession
                          (if negb disableTLS then TLSServer (conn s) else conn s)
                          (TLSClient (serverConn s))))).
Proof.
  intros Hrd Hdec Hm. rewrite (serverToClient_decoded s env res Hrd Hdec).
  rewrite onSETUP_other, onKNOCK_other by now rewrite Hm.
  rewrite !M_bind_mret, M_bind_emit.
  unfold upgradeTLS. rewrite Method_onSTART, Hm.
  change (String.eqb "START" "START") with true. cbv iota.
  destruct (isErr (clientWriteErr env)); reflexivity.
Qed.

(** C7. A [START] message from the destination is forwarded to the client
    in one write of the re-encoded message. With TLS disabled and [sc] equal
    to ["tls"], the forwarded message is the decoded one with [sc] mapped to
    the empty value and nothing else changed; with TLS disabled and any other
    [sc], and whenever TLS is not disabled, it is the decoded message
    itself. *)
Theorem START_scheme_header_forwarded (s : Session) (env : RoundEnv)
    (res : Message) :
  terminalErr (rd_err (serverRead env)) = false ->
  NewMessage (rd_data (serverRead env)) = Returns (Some res) ->
  Method res = "START" ->
  exists fwd,
    trace (serverToClient range_order disableTLS s env)
    = [EvWrite (conn s) (ToBytes range_order fwd)]
    /\ (disableTLS = true -> Headers res !! "sc" = Some "tls" ->
        fwd = setHeaders res (<["sc" := ""]> (Headers res))
        /\ Headers fwd !! "sc" = Some "")
    /\ (disableTLS = true -> Headers res !! "sc" <> Some "tls" -> fwd = res)
    /\ (disableTLS = false -> fwd = res).
Proof.
  intros Hrd Hdec Hm. exists (onSTART disableTLS res).
  rewrite (serverToClient_START s env res Hrd Hdec Hm). cbn [trace].
  split; [reflexivity |]. unfold onSTART. rewrite Hm.
  change (String.eqb "START" "START") with true. cbn [andb].
  split; [| split].
  - intros -> Hsc. rewrite Hsc. cbn [String.eqb]. split; [reflexivity |].
    apply lookup_insert_eq.
  - intros -> Hsc. destruct (Headers res !! "sc") as [scheme |]; [| reflexivity].
    destruct (String.eqb_spec scheme "tls") as [-> | _]; [congruence | reflexivity].
  - intros ->. reflexivity.
Qed.

Lemma clientToServer_Continue (s : Session) (env : RoundEnv) (s' : Session) :
  result (clientToServer range_order s env) = Returns (Continue s') -> s' = s.
Proof.
  unfold clientToServer.
  destruct (terminalErr _); [discriminate |].
  destruct (0 <? strlen _); [| now intros [= <-]].
  destruct (NewMessage _) as [[req |] | p]; [| discriminate ..].
  rewrite M_bind_lift_Returns. cbn [deref]. rewrite M_bind_lift_Returns.
  rewrite M_bind_emit. cbn [result].
  destruct (isErr _); [discriminate | now intros [= <-]].
Qed.

Lemma serverToClient_Continue (s : Session) (env : RoundEnv) (s' : Session) :
  result (serverToClient range_order disableTLS s env) = Returns (Continue s') ->
  s' = s
  \/ exists res,
       NewMessage (rd_data (serverRead env)) = Returns (Some res)
       /\ s' = upgradeTLS disableTLS res s.
Proof.
  unfold serverToClient.
  destruct (terminalErr _); [discriminate |].
  destruct (0 <? strlen _); [| intros [= <-]; now left].
  destruct (NewMessage _) as [[res |] | p]; [| discriminate ..].
  rewrite M_bind_lift_Returns. cbn [deref]. rewrite M_bind_lift_Returns.
  destruct (result (onSETUP res (listenErr env))) as [[] | p] eqn:E1;
    [rewrite (M_bind_Returns _ _ _ E1)
    | rewrite (M_bind_Panics _ _ _ E1); discriminate].
  cbn [result].
  destruct (result (onKNOCK res (listenErr env))) as [[] | p] eqn:E2;
    [rewrite (M_bind_Returns _ _ _ E2)
    | rewrite (M_bind_Panics _ _ _ E2); discriminate].
  cbn [result]. rewrite M_bind_emit. cbn [result].
  destruct (isErr _); [discriminate |].
  intros [= <-]. right. exists res. split; [reflexivity |].
  unfold upgradeTLS. now rewrite Method_onSTART.
Qed.

Lemma round_Continue (s : Session) (env : RoundEnv) (s' : Session) :
  result (round range_order disableTLS s env) = Returns (Continue s') ->
  result (serverToClient range_order disableTLS s env) = Returns (Continue s').
Proof.
  unfold round.
  destruct (result (clientToServer range_order s env)) as [[s1 |] | p] eqn:E.
  - rewrite (M_bind_Returns _ _ _ E). cbn [result].
    now rewrite (clientToServer_Continue s env s1 E).
  - rewrite (M_bind_Returns _ _ _ E). discriminate.
  - rewrite (M_bind_Panics _ _ _ E). discriminate.
Qed.

(** What an iteration that goes on hands to the next one: the session it
    started with, or, after a [START] message from the destination, the
    same two connections wrapped. *)
Lemma round_session_cases (s : Session) (env : RoundEnv) (s' : Session) :
  result (round range_order disableTLS s env) = Returns (Continue s') ->
  s' = s
  \/ exists res,
       NewMessage (rd_data (serverRead env)) = Returns (Some res)
       /\ Method res = "START"
       /\ s' = mkSession
                 (if negb disableTLS then TLSServer (conn s) else conn s)
                 (TLSClient (serverConn s)).
Proof.
  intros H%round_Continue%serverToClient_Continue.
  destruct H as [-> | (res & Hdec & ->)]; [now left |].
  unfold upgradeTLS. destruct (String.eqb_spec (Method res) "START") as [Hm | _].
  - right. exists res. auto.
  - now left.
Qed.

Lemma rounds_cons (s : Session) (env : RoundEnv) (rest : list RoundEnv)
    (s' : Session) :
  result (round range_order disableTLS s env) = Returns (Continue s') ->
  rounds range_order disableTLS s (env :: rest)
  = mkM (trace (round range_order disableTLS s env)
         ++ trace (rounds range_order disableTLS s' rest))
      (result (rounds range_order disableTLS s' rest)).
Proof. intros H. cbn [rounds]. now rewrite (M_bind_Returns _ _ _ H). Qed.

(** C8. An iteration in which a [START] message from the destination is
    written to the client ends with the two connections of the session
    wrapped in place: the destination connection by [tls.Client], always,
    and the client connection by [tls.Server] unless TLS is disabled, when
    it is left as it is. The message itself is still written to the client
    connection as it was, and the iterations that follow run on the wrapped
    connections: what the client sends next is written to the wrapped
    destination connection. The connections of a session change in no other
    way: an iteration that goes on with a different session has decoded a
    [START] message from the destination and has wrapped these very
    connections, and over any number of iterations a leg keeps its socket,
    loses no wrapper, and once not plain stays not plain. *)
Theorem START_upgrades_TLS_roles :
  (forall s env res,
     terminalErr (rd_err (serverRead env)) = false ->
     NewMessage (rd_data (serverRead env)) = Returns (Some res) ->
     Method res = "START" ->
     isErr (clientWriteErr env) = false ->
     let s' := mkSession
                 (if negb disableTLS then TLSServer (conn s) else conn s)
                 (TLSClient (serverConn s)) in
     serverToClient range_order disableTLS s env
     = mkM [EvWrite (conn s) (ToBytes range_order (onSTART disableTLS res))]
         (Returns (Continue s'))
     /\ (result (clientToServer range_order s env) = Returns (Continue s) ->
         round range_order disableTLS s env
         = mkM (trace (clientToServer range_order s env)
                ++ [EvWrite (conn s)
                      (ToBytes range_order (onSTART disableTLS res))])
             (Returns (Continue s'))
         /\ forall rest,
              rounds range_order disableTLS s (env :: rest)
              = mkM (trace (round range_order disableTLS s env)
                     ++ trace (rounds range_order disableTLS s' rest))
                  (result (rounds range_order disableTLS s' rest)))
     /\ (forall env' req,
          terminalErr (rd_err (clientRead env')) = false ->
          NewMessage (rd_data (clientRead env')) = Returns (Some req) ->
          trace (clientToServer range_order s' env')
          = [EvWrite (TLSClient (serverConn s)) (ToBytes range_order req)])
     /\ role (serverConn s') = SecureClient
     /\ (disableTLS = false -> role (conn s') = SecureServer)
     /\ (disableTLS = true -> conn s' = conn s))
  /\ (forall s env rest s',
       result (round range_order disableTLS s env) = Returns (Continue s') ->
       rounds range_order disableTLS s (env :: rest)
       = mkM (trace (round range_order disableTLS s env)
              ++ trace (rounds range_order disableTLS s' rest))
           (result (rounds range_order disableTLS s' rest)))
  /\ (forall s env s',
       result (round range_order disableTLS s env) = Returns (Continue s') ->
       s' = s
       \/ exists res,
            NewMessage (rd_data (serverRead env)) = Returns (Some res)
            /\ Method res = "START"
            /\ s' = mkSession
                      (if negb disableTLS then TLSServer (conn s) else conn s)
                      (TLSClient (serverConn s)))
  /\ (forall s envs s',
       result (rounds range_order disableTLS s envs) = Returns (Continue s') ->
       (role (conn s) <> RolePlain -> role (conn s') <> RolePlain)
       /\ (role (serverConn s) <> RolePlain ->
           role (serverConn s') <> RolePlain)
       /\ socket (conn s') = socket (conn s)
       /\ socket (serverConn s') = socket (serverConn s)
       /\ (tlsDepth (conn s) <= tlsDepth (conn s'))%nat
       /\ (tlsDepth (serverConn s) <= tlsDepth (serverConn s'))%nat).
Proof.
  split; [| split; [| split]].
  - intros s env res Hrd Hdec Hm Hw s'.
    assert (Hs2c : serverToClient range_order disableTLS s env
                   = mkM [EvWrite (conn s)
                            (ToBytes range_order (onSTART disableTLS res))]
                       (Returns (Continue s'))).
    { rewrite (serverToClient_START s env res Hrd Hdec Hm), Hw. reflexivity. }
    split; [exact Hs2c |]. split; [| split].
    + intros Hc2s.
      assert (Hround : round range_order disableTLS s env
                       = mkM (trace (clientToServer range_order s env)
                              ++ [EvWrite (conn s)
                                    (ToBytes range_order (onSTART disableTLS res))])
                           (Returns (Continue s'))).
      { unfold round. rewrite (M_bind_Returns _ _ _ Hc2s), Hs2c. reflexivity. }
      split; [exact Hround |]. intros rest. apply rounds_cons.
      now rewrite Hround.
    + intros env' req Hrd' Hdec'. unfold clientToServer. rewrite Hrd'.
      destruct (0 <? strlen (rd_data (clientRead env'))) eqn:Hlen.
      * rewrite Hdec', M_bind_lift_Returns. cbn [deref].
        rewrite M_bind_lift_Returns, M_bind_emit. cbn [trace serverConn].
        subst s'. cbn [serverConn].
        destruct (isErr (serverWriteErr env')); reflexivity.
      * exfalso. destruct (rd_data (clientRead env')); [| discriminate Hlen].
        vm_compute in Hdec'. discriminate Hdec'.
    + subst s'. cbn [conn serverConn role].
      split; [reflexivity |]. split; intros ->; reflexivity.
  - intros s env rest s'. apply rounds_cons.
  - apply round_session_cases.
  - intros s envs. revert s. induction envs as [|env rest IH]; intros s s' H.
    + cbn in H. injection H as <-. repeat split; auto.
    + cbn [rounds] in H.
      destruct (result (round range_order disableTLS s env)) as [[s1 |] | p] eqn:E.
      * rewrite (M_bind_Returns _ _ _ E) in H. cbn [result] in H.
        destruct (IH s1 s' H) as (I1 & I2 & I3 & I4 & I5 & I6).
        destruct (round_session_cases s env s1 E) as [-> | (res & _ & _ & ->)];
          [repeat split; assumption |].
        cbn [conn serverConn] in *.
        rewrite I3, I4. cbn [socket].
        assert (J : socket (if negb disableTLS then TLSServer (conn s)
                            else conn s) = socket (conn s)
                    /\ (tlsDepth (conn s)
                        <= tlsDepth (if negb disableTLS then TLSServer (conn s)
                                     else conn s))%nat
                    /\ (role (conn s) <> RolePlain ->
                        role (if negb disableTLS then TLSServer (conn s)
                              else conn s) <> RolePlain)).
        { destruct (negb disableTLS); cbn [socket tlsDepth role];
            repeat split; try lia; try tauto; discriminate. }
        destruct J as (J1 & J2 & J3). cbn [tlsDepth] in I6.
        repeat split; try tauto; try lia.
        intros _. apply I2. discriminate.
      * rewrite (M_bind_Returns _ _ _ E) in H. discriminate H.
      * rewrite (M_bind_Panics _ _ _ E) in H. discriminate H.
Qed.

End SessionProperties.

(** The running example: a [START] response that asks the client for TLS. *)
Lemma START_scheme_header_forwarded_witness :
  let env := mkRound (mkRead "" None ErrDeadlineExceeded) ErrNil
               (mkRead (unlines ["iRTSP/1.21"; "Seq=7"; "RSP/START/200";
                                 "sc=tls"; "Submit"]) None ErrNil) ErrNil
                                 (fun _ => ErrNil) in
  let s := mkSession (Plain (mkEndpoint "client" None))
             (Plain (mkEndpoint "server" None)) in
  let res := mkMessage "iRTSP/1.21" 7 "START" 200 (<["sc" := "tls"]> ∅) in
  NewMessage (rd_data (serverRead env)) = Returns (Some res)
  /\ trace (serverToClient map_to_list true s env)
     = [EvWrite (conn s)
          (unlines ["iRTSP/1.21"; "Seq=7"; "RSP/START/200"; "sc"; "Submit"])]
  /\ trace (serverToClient map_to_list false s env)
     = [EvWrite (conn s)
          (unlines ["iRTSP/1.21"; "Seq=7"; "RSP/START/200"; "sc=tls"; "Submit"])].
Proof.
  intros env s res.
  assert (Hdec : NewMessage (rd_data (serverRead env)) = Returns (Some res))
    by (vm_compute; reflexivity).
  split; [exact Hdec |]. split.
  - destruct (START_scheme_header_forwarded map_to_list true s env res
                eq_refl Hdec eq_refl) as (fwd & Htr & Hon & _).
    destruct (Hon eq_refl) as [-> _]; [vm_compute; reflexivity |].
    rewrite Htr. vm_compute. reflexivity.
  - destruct (START_scheme_header_forwarded map_to_list false s env res
                eq_refl Hdec eq_refl) as (fwd & Htr & _ & _ & Hoff).
    rewrite Htr, (Hoff eq_refl). vm_compute. reflexivity.
Defined.

(** The same response upgrades both legs, after it has been written to the
    client in the clear. *)
Lemma START_upgrades_TLS_roles_witness :
  let env := mkRound (mkRead "" None ErrDeadlineExceeded) ErrNil
               (mkRead (unlines ["iRTSP/1.21"; "Seq=7"; "RSP/START/200";
                                 "sc=tls"; "Submit"]) None ErrNil) ErrNil
               (fun _ => ErrNil) in
  let s := mkSession (Plain (mkEndpoint "client" None))
             (Plain (mkEndpoint "server" None)) in
  let s' := mkSession (TLSServer (conn s)) (TLSClient (serverConn s)) in
  round map_to_list false s env
  = mkM [EvWrite (conn s)
           (unlines ["iRTSP/1.21"; "Seq=7"; "RSP/START/200"; "sc=tls";
                     "Submit"])]
      (Returns (Continue s'))
  /\ role (serverConn s') = SecureClient
  /\ role (conn s') = SecureServer.
Proof.
  intros env s s'.
  destruct (START_upgrades_TLS_roles map_to_list false) as [Hup _].
  destruct (Hup s env (mkMessage "iRTSP/1.21" 7 "START" 200 (<["sc" := "tls"]> ∅)))
    as (_ & Hround & _ & Hsrv & Hcli & _);
    [reflexivity | vm_compute; reflexivity | reflexivity | reflexivity |].
  destruct Hround as [Hround _]; [reflexivity |].
  split; [| split; [exact Hsrv | exact (Hcli eq_refl)]].
  rewrite Hround. vm_compute. reflexivity.
Defined.

Section ForwardedBytes.

Variable range_order : gmap string string -> list (string * string).
Hypothesis range_order_perm : forall h, range_order h ≡ₚ map_to_list h.

(** A header of the message has its line among the bytes [ToBytes] writes. *)
Lemma ToBytes_header_line (m : Message) (k v : string) :
  Headers m !! k = Some v ->
  exists before after,
    ToBytes range_order m
    = unlines (Version m
               :: ("Seq=" +:+ strconv.FormatInt (Sequence m))
               :: methodLine m
               :: before ++ headerLine (k, v) :: after ++ ["Submit"]).
Proof.
  intros H. apply elem_of_map_to_list in H.
  rewrite <- (range_order_perm (Headers m)) in H.
  apply list_elem_of_split in H as (l1 & l2 & E).
  exists (map headerLine l1), (map headerLine l2).
  rewrite ToBytes_unlines, E, map_app, <- app_assoc. reflexivity.
Qed.

(** With TLS disabled, the bytes forwarded for a [START] message that came
    with [sc=tls] have the bare line [sc]. *)
Lemma forwarded_START_has_bare_sc (s : Session) (env : RoundEnv) (res : Message) :
  terminalErr (rd_err (serverRead env)) = false ->
  NewMessage (rd_data (serverRead env)) = Returns (Some res) ->
  Method res = "START" ->
  Headers res !! "sc" = Some "tls" ->
  exists before after,
    trace (serverToClient range_order true s env)
    = [EvWrite (conn s)
         (unlines (Version res
                   :: ("Seq=" +:+ strconv.FormatInt (Sequence res))
                   :: methodLine res
                   :: before ++ "sc" :: after ++ ["Submit"]))].
Proof.
  intros Hrd Hdec Hm Hsc.
  rewrite (serverToClient_START range_order true s env res Hrd Hdec Hm).
  cbn [trace]. unfold onSTART. rewrite Hm, Hsc.
  change (String.eqb "START" "START" && true) with true. cbv iota.
  change (String.eqb "tls" "tls") with true. cbv iota.
  destruct (ToBytes_header_line
              (setHeaders res (<["sc" := ""]> (Headers res))) "sc" "")
    as (before & after & E); [apply lookup_insert_eq |].
  exists before, after. rewrite E. reflexivity.
Qed.

End ForwardedBytes.

(** ** KNOCK descriptors *)

Lemma TrimRight_spec (s : string) (c : ascii) :
  endsWith (strings.TrimRight s c) c = false
  /\ exists n, s = strings.TrimRight s c +:+ repeatByte c n.
Proof.
  induction s as [|x r [IHe [n IHn]]].
  - split; [reflexivity | now exists 0%nat].
  - cbn [strings.TrimRight].
    destruct (strings.TrimRight r c) as [|y t] eqn:E.
    + rewrite string_app_nil_l in IHn.
      destruct (Ascii.eqb_spec x c) as [-> | Hne].
      * split; [reflexivity |]. exists (S n). now rewrite IHn at 1.
      * split; [cbn; now apply Ascii.eqb_neq |]. exists n.
        now rewrite string_app_cons, string_app_nil_l, IHn at 1.
    + split; [exact IHe |]. exists n.
      now rewrite string_app_cons, <- IHn.
Qed.

Lemma TrimRight_TrimSuffix (s : string) (c : ascii) :
  endsWith (strings.TrimSuffix s c) c = false ->
  strings.TrimRight s c = strings.TrimSuffix s c.
Proof.
  induction s as [|x r IH]; [reflexivity |].
  destruct r as [|y r'].
  - cbn. destruct (Ascii.eqb x c) eqn:E; [reflexivity |]. cbn. now rewrite E.
  - change (strings.TrimSuffix (String x (String y r')) c)
      with (String x (strings.TrimSuffix (String y r') c)).
    change (strings.TrimRight (String x (String y r')) c)
      with (match strings.TrimRight (String y r') c with
            | EmptyString =>
                if Ascii.eqb x c then EmptyString else String x EmptyString
            | r0 => String x r0
            end).
    intros H.
    destruct (strings.TrimSuffix (String y r') c) as [|z w] eqn:E.
    + rewrite IH by reflexivity. cbn in H. now rewrite H.
    + rewrite IH by exact H. reflexivity.
Qed.

Section KnockAndSetup.

Variable range_order : gmap string string -> list (string * string).
Variable disableTLS : bool.

(** C3, as the code has it. For a [KNOCK] message from the destination the
    spawner is called once, with header [p] stripped of every trailing [;]:
    the descriptor passed does not end in [;], and [p] is that descriptor
    followed by semicolons only. Where removing a single [;] already leaves
    no trailing [;], the two agree. *)
Theorem KNOCK_descriptor_trims_all_semicolons (s : Session) (env : RoundEnv)
    (res : Message) :
  terminalErr (rd_err (serverRead env)) = false ->
  NewMessage (rd_data (serverRead env)) = Returns (Some res) ->
  Method res = "KNOCK" ->
  let p := mapIndex (Headers res) "p" in
  exists d,
    spawnCalls (trace (serverToClient range_order disableTLS s env))
    = [(d, "KNOCK")]
    /\ endsWith d ";" = false
    /\ (exists n, p = d +:+ repeatByte ";" n)
    /\ (endsWith (strings.TrimSuffix p ";") ";" = false ->
        d = strings.TrimSuffix p ";").
Proof.
  intros Hrd Hdec Hm p. exists (strings.TrimRight p ";").
  destruct (TrimRight_spec p ";") as [He Hn].
  split; [| split; [exact He | split; [exact Hn | apply TrimRight_TrimSuffix]]].
  rewrite (serverToClient_decoded range_order disableTLS s env res Hrd Hdec).
  rewrite onSETUP_other by now rewrite Hm.
  rewrite M_bind_mret. unfold onKNOCK. rewrite Hm.
  change (String.eqb "KNOCK" "KNOCK") with true. cbv iota. fold p.
  pose proof (startMediaConnection_calls (strings.TrimRight p ";") "KNOCK"
                (listenErr env "KNOCK")) as Hc.
  destruct (result (startMediaConnection (strings.TrimRight p ";") "KNOCK"
                      (listenErr env "KNOCK")))
    as [[] | e] eqn:E.
  - rewrite (M_bind_Returns _ _ _ E). cbn [trace].
    rewrite spawnCalls_app, Hc, M_bind_emit. cbn [trace].
    destruct (isErr (clientWriteErr env)); reflexivity.
  - rewrite (M_bind_Panics _ _ _ E). exact Hc.
Qed.

End KnockAndSetup.

(** The descriptor of the source comment, with its one trailing [;]. *)
Lemma KNOCK_descriptor_trims_all_semicolons_witness :
  let env := mkRound (mkRead "" None ErrDeadlineExceeded) ErrNil
               (mkRead (unlines ["iRTSP/1.21"; "Seq=3"; "RSP/KNOCK/200";
                                 "p=iDataChunk/unicast/tcp/40605;"; "Submit"])
                  None ErrNil) ErrNil (fun _ => ErrNil) in
  let s := mkSession (Plain (mkEndpoint "client" None))
             (Plain (mkEndpoint "server" None)) in
  spawnCalls (trace (serverToClient map_to_list false s env))
  = [("iDataChunk/unicast/tcp/40605", "KNOCK")].
Proof.
  intros env s.
  destruct (KNOCK_descriptor_trims_all_semicolons map_to_list false s env
              (mkMessage "iRTSP/1.21" 3 "KNOCK" 200
                 (<["p" := "iDataChunk/unicast/tcp/40605;"]> ∅)))
    as (d & Hcalls & _ & _ & Hone);
    [reflexivity | vm_compute; reflexivity | reflexivity |].
  rewrite Hcalls, Hone; [| vm_compute; reflexivity].
  vm_compute. reflexivity.
Defined.

(** C3, as the claim has it, fails: on a descriptor ending in [;;] the
    spawner receives the descriptor without either of them, where removing
    exactly one would leave ["iDataChunk/unicast/tcp/40605;"]. *)
Lemma KNOCK_double_semicolon_counterexample :
  let p := "iDataChunk/unicast/tcp/40605;;" in
  let env := mkRound (mkRead "" None ErrDeadlineExceeded) ErrNil
               (mkRead (unlines ["iRTSP/1.21"; "Seq=3"; "RSP/KNOCK/200";
                                 "p=" +:+ p; "Submit"]) None ErrNil) ErrNil
                                 (fun _ => ErrNil) in
  let s := mkSession (Plain (mkEndpoint "client" None))
             (Plain (mkEndpoint "server" None)) in
  NewMessage (rd_data (serverRead env))
  = Returns (Some (mkMessage "iRTSP/1.21" 3 "KNOCK" 200 (<["p" := p]> ∅)))
  /\ spawnCalls (trace (serverToClient map_to_list false s env))
     = [("iDataChunk/unicast/tcp/40605", "KNOCK")]
  /\ strings.TrimSuffix p ";" = "iDataChunk/unicast/tcp/40605;"
  /\ spawnCalls (trace (serverToClient map_to_list false s env))
     <> [(strings.TrimSuffix p ";", "KNOCK")].
Proof.
  intros p env s. repeat split; try (vm_compute; reflexivity).
  vm_compute. discriminate.
Qed.

(** ** SETUP descriptors *)


(** With [v] and [a] equal and [c] different, all well-formed: one video
    channel, one control channel, no audio channel. *)
Example onSETUP_shared_audio :
  spawnCalls
    (trace (onSETUP (mkMessage "iRTSP/1.21" 2 "SETUP" 200
                       (<["v" := "iDataChunk/unicast/tcp/40603"]>
                          (<["a" := "iDataChunk/unicast/tcp/40603"]>
                             (<["c" := "iDataChunk/unicast/tcp/40604"]> ∅))))
              (fun _ => ErrNil)))
  = [("iDataChunk/unicast/tcp/40603", "VIDEO");
     ("iDataChunk/unicast/tcp/40604", "CONTROL")].
Proof. vm_compute. reflexivity. Qed.

(** The calls of the spawner are made one after the other, and a panic in
    one of them ends the session: when [v], [a] and [c] hold no descriptor
    at all ([v=x], [a=x], [c=y]), the video call panics on the missing [/]
    and the control call is never reached. *)
Example SETUP_spawn_stops_at_malformed_descriptor
    (range_order : gmap string string -> list (string * string))
    (disableTLS : bool) (s : Session) :
  let env := mkRound (mkRead "" None ErrDeadlineExceeded) ErrNil
               (mkRead (unlines ["iRTSP/1.21"; "Seq=2"; "RSP/SETUP/200";
                                 "v=x"; "a=x"; "c=y"; "Submit"]) None ErrNil)
               ErrNil (fun _ => ErrNil) in
  NewMessage (rd_data (serverRead env))
  = Returns (Some (mkMessage "iRTSP/1.21" 2 "SETUP" 200
                     (<["v" := "x"]> (<["a" := "x"]> (<["c" := "y"]> ∅)))))
  /\ serverToClient range_order disableTLS s env
     = mkM [EvStartMedia "x" "VIDEO"] (Panics (IndexOutOfRange (-1) 1))
  /\ spawnCalls (trace (serverToClient range_order disableTLS s env))
     = [("x", "VIDEO")].
Proof.
  intros env.
  assert (E : serverToClient range_order disableTLS s env
              = mkM [EvStartMedia "x" "VIDEO"] (Panics (IndexOutOfRange (-1) 1)))
    by (vm_compute; reflexivity).
  split; [vm_compute; reflexivity |]. split; [exact E |].
  rewrite E. reflexivity.
Qed.

(** ** The duplex relay *)

Section RelayProperties.

Variables (conn serverConn : Conn) (network : string).


(** A step of one goroutine leaves the other as it was, whatever the step
    did: an error in one direction does not stop the other. *)
Lemma relayStep_independent (r : Relay) (rd : ReadResult) (werr : error)
    (evs : list Event) (r' : Relay) :
  (relayStep conn serverConn network r (StepClientToServer rd werr)
   = Some (evs, r') -> s2c_running r' = s2c_running r)
  /\ (relayStep conn serverConn network r (StepServerToClient rd werr)
      = Some (evs, r') -> c2s_running r' = c2s_running r).
Proof.
  unfold relayStep. destruct (returned r); [split; discriminate |]. split.
  - destruct (c2s_running r); [| discriminate].
    destruct (copyClientToServer _ _ _ _ _). now intros [= <- <-].
  - destruct (s2c_running r); [| discriminate].
    destruct (copyServerToClient _ _ _ _ _). now intros [= <- <-].
Qed.

(** A goroutine never closes a connection; the only [Close] of the relay is
    the deferred one, on the destination side. *)
Lemma relayStep_closes (r : Relay) (st : RelayStep) (evs : list Event)
    (r' : Relay) (c : Conn) :
  relayStep conn serverConn network r st = Some (evs, r') ->
  In (EvClose c) evs -> c = serverConn.
Proof.
  unfold relayStep. destruct (returned r); [discriminate |].
  destruct st as [rd werr | rd werr |].
  - destruct (c2s_running r); [| discriminate].
    unfold copyClientToServer.
    destruct (terminalErr _); [intros [= <- <-] [] |].
    destruct (0 <? strlen _); [| intros [= <- <-] []].
    destruct (isErr werr), (String.eqb network "udp");
      intros [= <- <-] [H | []]; discriminate H.
  - destruct (s2c_running r); [| discriminate].
    unfold copyServerToClient.
    destruct (terminalErr _); [intros [= <- <-] [] |].
    destruct (0 <? strlen _); [| intros [= <- <-] []].
    destruct (isErr werr), (String.eqb network "udp");
      intros [= <- <-] [H | []]; discriminate H.
  - destruct (c2s_running r || s2c_running r); [discriminate |].
    intros [= <- <-] [H | []]. now injection H as <-.
Qed.


Lemma relayRun_closes (steps : list RelayStep) (r : Relay) (evs : list Event)
    (r' : Relay) (c : Conn) :
  relayRun conn serverConn network r steps = Some (evs, r') ->
  In (EvClose c) evs -> c = serverConn.
Proof.
  revert r evs. induction steps as [|st rest IH]; intros r evs.
  - intros [= <- <-] [].
  - cbn [relayRun].
    destruct (relayStep conn serverConn network r st) as [[e1 r1] |] eqn:E1;
      [| discriminate].
    destruct (relayRun conn serverConn network r1 rest) as [[e2 r2] |] eqn:E2;
      [| discriminate].
    intros [= <- <-] Hin. apply in_app_or in Hin as [Hin | Hin].
    + exact (relayStep_closes _ _ _ _ _ E1 Hin).
    + exact (IH _ _ E2 Hin).
Qed.

End RelayProperties.

(** C4 (the code departs from it). Nothing links the two goroutines of the
    relay: after a terminal read error has ended the client-to-server loop,
    the server-to-client loop still copies, and [wg.Wait] cannot return.
    When both loops have ended the relay returns and closes the destination
    connection only; the client connection is left open. *)
Theorem relay_error_ends_one_direction_only (conn serverConn : Conn) :
  let failed := mkRead "" None ErrOther in
  let data := mkRead "x" None ErrNil in
  relayRun conn serverConn "tcp" relayStart
    [StepClientToServer failed ErrNil; StepServerToClient data ErrNil]
  = Some ([EvWrite conn "x"], mkRelay false true false)
  /\ relayRun conn serverConn "tcp" relayStart
       [StepClientToServer failed ErrNil; StepWaitReturns]
     = None
  /\ relayRun conn serverConn "tcp" relayStart
       [StepClientToServer failed ErrNil; StepServerToClient failed ErrNil;
        StepWaitReturns]
     = Some ([EvClose serverConn], mkRelay false false true).
Proof. repeat split. Qed.

(** ** Datagram side channels *)

Lemma index_second_last {A} (l : list A) (a b : A) :
  slice.index (l ++ [a; b]) (slice.len (l ++ [a; b]) - 2) = Returns a.
Proof.
  unfold slice.index. rewrite len_app. change (slice.len [a; b]) with 2.
  pose proof (len_nonneg l).
  replace (slice.len l + 2 - 2) with (slice.len l) by lia.
  destruct (Z.ltb_spec (slice.len l) 0); [lia |].
  destruct (Z.leb_spec (slice.len l + 2) (slice.len l)); [lia |].
  cbn [orb]. unfold slice.len. rewrite Nat2Z.id.
  rewrite nth_error_app2 by lia. now rewrite Nat.sub_diag.
Qed.

(** The spawner on a descriptor that ends in [/ust/<port>]: unless the bind
    fails, a datagram socket is bound on that port, and the relay that runs
    on it is given the network ["udp"] and the port as written. *)
Lemma startMediaConnection_ust (pre port kind : string) (portInt : Z)
    (bindErr : error) :
  strings.ContainsByte port "/" = false ->
  strconv.Atoi port = Some portInt ->
  startMediaConnection (pre +:+ "/ust/" +:+ port) kind bindErr
  = mkM (EvStartMedia (pre +:+ "/ust/" +:+ port) kind
         :: if isErr bindErr then []
            else [EvBind (ListenUDP "udp" portInt) "udp" port kind])
      (Returns tt).
Proof.
  intros Hp Ha. unfold startMediaConnection. rewrite M_bind_emit.
  change (pre +:+ "/ust/" +:+ port)
    with (pre +:+ String "/" ("ust" +:+ String "/" port)).
  rewrite Split_app, (Split_line "ust" port "/" eq_refl), (Split_no_sep _ _ Hp).
  assert (Hlast : slice.index (strings.Split pre "/" ++ ["ust"; port])
                    (slice.len (strings.Split pre "/" ++ ["ust"; port]) - 1)
                  = Returns port).
  { change (strings.Split pre "/" ++ ["ust"; port])
      with (strings.Split pre "/" ++ ["ust"] ++ [port]).
    rewrite app_assoc. apply index_last. }
  rewrite Hlast.
  rewrite M_bind_lift_Returns, index_second_last, M_bind_lift_Returns.
  change (String.eqb "ust" "ust") with true. cbv iota. rewrite Ha.
  now destruct (isErr bindErr).
Qed.

(** The relay on a datagram socket dials the destination host on the port of
    the descriptor. *)
Lemma handleMediaConnection_dials (serverAddress : string) (conn : Conn)
    (network port kind : string) (dialed : option Conn)
    (steps : list RelayStep) (evs : list Event) (r : Relay) :
  handleMediaConnection serverAddress conn network port kind dialed steps
  = Some (evs, r) ->
  exists rest, evs = EvDial network (serverAddress +:+ ":" +:+ port) :: rest.
Proof.
  unfold handleMediaConnection. destruct dialed as [serverConn |].
  - destruct (relayRun _ _ _ _ _) as [[e r'] |]; [| discriminate].
    intros [= <- <-]. eauto.
  - intros [= <- <-]. eauto.
Qed.

(** What a goroutine of the relay does is the same whoever sent the bytes:
    [Read] does not report the sender, and nothing else records it. *)
Lemma copy_ignores_sender (conn serverConn : Conn) (network data : string)
    (from from' : option string) (err werr : error) :
  copyClientToServer conn serverConn network (mkRead data from err) werr
  = copyClientToServer conn serverConn network (mkRead data from' err) werr
  /\ copyServerToClient conn serverConn network (mkRead data from err) werr
     = copyServerToClient conn serverConn network (mkRead data from' err) werr.
Proof. split; reflexivity. Qed.

(** C5 (the code departs from it). For the descriptor
    ["iDataChunk/unicast/ust/40604"], and a bind that succeeds, a datagram
    socket is bound on port 40604 and the relay dials the destination host on
    that port. A datagram from a
    client is forwarded from the bound socket. The reply is not written on
    the bound socket to that client: it is written on the dialed socket, to
    the remote address of the bound socket, which a bound datagram socket
    does not have. *)
Theorem datagram_reply_not_sent_to_sender (serverAddress kind sender : string) :
  let descriptor := "iDataChunk/unicast/ust/40604" in
  let bound := Plain (mkEndpoint "0.0.0.0:40604" None) in
  let dialed := Plain (mkEndpoint "dialed" (Some (serverAddress +:+ ":40604"))) in
  startMediaConnection descriptor kind ErrNil
  = mkM [EvStartMedia descriptor kind;
         EvBind (ListenUDP "udp" 40604) "udp" "40604" kind] (Returns tt)
  /\ handleMediaConnection serverAddress bound "udp" "40604" kind (Some dialed)
       [StepClientToServer (mkRead "ping" (Some sender) ErrNil) ErrNil;
        StepServerToClient (mkRead "pong" None ErrNil) ErrNil]
     = Some ([EvDial "udp" (serverAddress +:+ ":40604");
              EvWriteTo bound "ping" (Some (serverAddress +:+ ":40604"));
              EvWriteTo dialed "pong" None],
             mkRelay true true false)
  /\ EvWriteTo dialed "pong" None <> EvWriteTo bound "pong" (Some sender).
Proof.
  intros descriptor bound dialed. split; [| split].
  - apply (startMediaConnection_ust "iDataChunk/unicast" "40604" kind 40604
             ErrNil); reflexivity.
  - reflexivity.
  - discriminate.
Qed.

(* ================================================================= *)
(** * Further properties of the code *)

(** ** The codec, line by line *)

Lemma unlines_snoc (ls : list string) (x : string) :
  unlines (ls ++ [x]) = unlines ls +:+ x +:+ CRLF.
Proof. rewrite unlines_app. reflexivity. Qed.

(** Decoding lines that were written with CRLF: the version line is taken,
    a terminator line at the end is dropped, and the sequence line is next. *)
Lemma NewMessage_unlines (version : string) (tl : list string) :
  Forall (fun l => lineSafe l = true) (version :: tl) ->
  tl <> [] ->
  NewMessage (unlines (version :: tl))
  = NewMessage_sequence (setVersion (mkMessage "" 0 "" 0 ∅) version)
      (if String.eqb (List.last tl "") "Submit" then removelast tl else tl).
Proof.
  intros Hsafe Hne. unfold NewMessage. cbv zeta.
  rewrite (lines_of_unlines _ Hsafe).
  destruct (Z.leb_spec (slice.len ((version :: tl) ++ [""])) 0) as [Hle | _].
  { rewrite len_app, len_cons in Hle. pose proof (len_nonneg tl).
    change (slice.len [""]) with 1 in Hle. lia. }
  rewrite to_init, bind_Returns.
  destruct (list_snoc_cases tl) as [-> | (k & y & ->)]; [congruence |].
  rewrite last_last, removelast_last.
  change (version :: k ++ [y]) with ((version :: k) ++ [y]).
  rewrite index_last, bind_Returns.
  destruct (String.eqb y "Submit").
  - rewrite to_init, bind_Returns, index_head, bind_Returns.
    now rewrite from_tail, bind_Returns.
  - rewrite bind_Returns. cbn [app].
    rewrite index_head, bind_Returns. now rewrite from_tail, bind_Returns.
Qed.

Lemma NewMessage_sequence_Seq (msg : Message) (n : Z) (rest : list string) :
  strconv.int_range n = true ->
  NewMessage_sequence msg (("Seq=" +:+ strconv.FormatInt n) :: rest)
  = NewMessage_method (setSequence msg n) rest.
Proof.
  intros Hn. unfold NewMessage_sequence. rewrite index_head, bind_Returns.
  change ("Seq=" +:+ strconv.FormatInt n)
    with ("Seq" +:+ String "=" (strconv.FormatInt n)).
  rewrite Cut_found by reflexivity.
  change (true && String.eqb "Seq" "Seq") with true. cbv iota.
  now rewrite (Atoi_FormatInt _ Hn), from_tail, bind_Returns.
Qed.

Lemma NewMessage_method_SET (msg : Message) (method : string)
    (rest : list string) :
  NewMessage_method msg (("SET/" +:+ method) :: rest)
  = NewMessage_headers (setMethod msg method) rest.
Proof.
  unfold NewMessage_method. rewrite index_head, bind_Returns.
  change ("SET/" +:+ method) with ("SET" +:+ String "/" method).
  rewrite Cut_found by reflexivity.
  change (true && String.eqb "SET" "SET") with true.
  change (true && String.eqb "SET" "RSP") with false. cbv iota.
  now rewrite from_tail, !bind_Returns.
Qed.

Lemma NewMessage_method_RSP (msg : Message) (method codeString : string)
    (rest : list string) :
  strings.ContainsByte method "/" = false ->
  NewMessage_method msg (("RSP/" +:+ method +:+ "/" +:+ codeString) :: rest)
  = match strconv.Atoi codeString with
    | Some code => NewMessage_headers (setCode (setMethod msg method) code) rest
    | None => Returns (Some (setMethod msg method))
    end.
Proof.
  intros Hm. unfold NewMessage_method. rewrite index_head, bind_Returns.
  change ("RSP/" +:+ method +:+ "/" +:+ codeString)
    with ("RSP" +:+ String "/" (method +:+ String "/" codeString)).
  rewrite Cut_found by reflexivity.
  change (true && String.eqb "RSP" "SET") with false.
  change (true && String.eqb "RSP" "RSP") with true. cbv iota.
  rewrite bind_Returns. cbv iota beta. rewrite (Cut_found _ _ _ Hm).
  destruct (strconv.Atoi codeString); [| reflexivity].
  now rewrite from_tail, bind_Returns.
Qed.

Lemma Forall_lineSafe_headers (hs : list (string * string)) :
  Forall (fun hv : string * string => keySafe hv.1 = true /\ lineSafe hv.2 = true)
    hs ->
  Forall (fun l => lineSafe l = true) (map headerLine hs)
  /\ Forall (fun hv : string * string => keySafe hv.1 = true) hs.
Proof.
  intros H. split.
  - apply Forall_fmap. eapply Forall_impl; [exact H |].
    intros hv [? ?]. now apply lineSafe_headerLine.
  - eapply Forall_impl; [exact H |]. now intros hv [? ?].
Qed.

(** The headers a list of header lines decodes to: each line sets its key,
    so the last line of a key decides. *)
Lemma fold_insert_lookup (hs : list (string * string)) (k : string) :
  fold_left (fun (headers : gmap string string) hv => <[hv.1 := hv.2]> headers)
    hs ∅ !! k
  = snd <$> last (filter (fun hv : string * string => hv.1 = k) hs).
Proof.
  induction hs as [|[k' v'] hs IH] using rev_ind; [reflexivity |].
  rewrite fold_left_app, filter_app. cbn [fold_left fst snd].
  destruct (decide (k' = k)) as [-> | Hne].
  - rewrite lookup_insert_eq, filter_cons_True by reflexivity.
    now rewrite filter_nil, last_snoc.
  - rewrite lookup_insert_ne by exact Hne.
    rewrite filter_cons_False by exact Hne.
    now rewrite filter_nil, app_nil_r.
Qed.

(** X1. [NewMessage] returns a message exactly on the inputs for which,
    once the last element of the split and a terminator line at the end are
    dropped, a version line and one more line remain and a sequence line with
    a number is not the last line; on every other input it panics. It never
    returns nil, so the [len(messageLines) <= 0] branch is dead. *)
Theorem NewMessage_returns_iff_decodable (s : string) :
  (decodable s = true <-> exists m, NewMessage s = Returns (Some m))
  /\ (decodable s = false <-> exists p, NewMessage s = Panics p)
  /\ NewMessage s <> Returns None.
Proof.
  pose proof (NewMessage_decodable s) as H.
  destruct (decodable s); destruct H as [x H]; rewrite H.
  - split; [| split]; [split; eauto | split | discriminate].
    + discriminate.
    + intros [p Hp]. discriminate Hp.
  - split; [| split]; [split | split; eauto | discriminate].
    + discriminate.
    + intros [m Hm]. discriminate Hm.
Qed.

(** X2. Decoding a request whose lines are well formed keeps, for every
    header name, the value of its last line: a later line of the same name
    overwrites the earlier ones, a name written without [=] has the empty
    value, and a name that has no line is absent. *)
Theorem NewMessage_last_header_wins (version method : string) (seq : Z)
    (hs : list (string * string)) :
  lineSafe version = true ->
  strconv.int_range seq = true ->
  lineSafe method = true ->
  Forall (fun hv : string * string => keySafe hv.1 = true /\ lineSafe hv.2 = true)
    hs ->
  exists m,
    NewMessage (unlines (version
                         :: ("Seq=" +:+ strconv.FormatInt seq)
                         :: ("SET/" +:+ method)
                         :: map headerLine hs ++ ["Submit"]))
    = Returns (Some m)
    /\ Version m = version /\ Sequence m = seq /\ Method m = method
    /\ Code m = 0
    /\ forall k,
         Headers m !! k
         = snd <$> last (filter (fun hv : string * string => hv.1 = k) hs).
Proof.
  intros Hv Hs Hm Hh. destruct (Forall_lineSafe_headers hs Hh) as [Hl Hk].
  rewrite NewMessage_unlines; [| | discriminate].
  - change (("Seq=" +:+ strconv.FormatInt seq)
            :: ("SET/" +:+ method) :: map headerLine hs ++ ["Submit"])
      with ((("Seq=" +:+ strconv.FormatInt seq)
             :: ("SET/" +:+ method) :: map headerLine hs) ++ ["Submit"]).
    rewrite last_last, removelast_last.
    change (String.eqb "Submit" "Submit") with true. cbv iota.
    rewrite (NewMessage_sequence_Seq _ _ _ Hs), NewMessage_method_SET.
    unfold NewMessage_headers. eexists. split; [reflexivity |].
    cbn [Version Sequence Method Code Headers setHeaders setMethod setSequence
         setVersion].
    repeat (split; [reflexivity |]).
    intros k. rewrite (decode_headers _ _ Hk). apply fold_insert_lookup.
  - repeat apply Forall_cons_2.
    + exact Hv.
    + apply (lineSafe_app "Seq="); [reflexivity | apply lineSafe_FormatInt].
    + now apply (lineSafe_app "SET/").
    + apply Forall_app_2; [exact Hl | now repeat constructor].
Qed.

(** A repeated header, and one without a value. *)
Lemma NewMessage_last_header_wins_witness :
  exists m,
    NewMessage (unlines ["iRTSP/1.21"; "Seq=5"; "SET/SETUP"; "v=a/tcp/1"; "sc";
                         "v=b/tcp/2"; "Submit"])
    = Returns (Some m)
    /\ Headers m !! "v" = Some "b/tcp/2"
    /\ Headers m !! "sc" = Some ""
    /\ Headers m !! "a" = None.
Proof.
  destruct (NewMessage_last_header_wins "iRTSP/1.21" "SETUP" 5
              [("v", "a/tcp/1"); ("sc", ""); ("v", "b/tcp/2")])
    as (m & Hdec & _ & _ & _ & _ & Hlk);
    [reflexivity | reflexivity | reflexivity
    | repeat constructor |].
  exists m. split; [exact Hdec |].
  rewrite !Hlk. repeat split.
Defined.

(** X3. A sequence value that is not a number, and a response code that is
    not a number, end the decoding where they stand: the message returned has
    the fields read before them, and every later line (the method and the
    headers after a bad sequence value, the headers after a bad code) is
    dropped without a trace. *)
Theorem NewMessage_stops_at_bad_number (version method x : string) (seq : Z)
    (rest : list string) :
  lineSafe version = true ->
  lineSafe x = true ->
  strconv.Atoi x = None ->
  methodSafe method = true ->
  strconv.int_range seq = true ->
  Forall (fun l => lineSafe l = true) rest ->
  NewMessage (unlines (version :: ("Seq=" +:+ x) :: rest))
  = Returns (Some (mkMessage version 0 "" 0 ∅))
  /\ NewMessage (unlines (version
                          :: ("Seq=" +:+ strconv.FormatInt seq)
                          :: ("RSP/" +:+ method +:+ "/" +:+ x)
                          :: rest))
     = Returns (Some (mkMessage version seq method 0 ∅)).
Proof.
  intros Hv Hx Ha Hm Hs Hrest.
  assert (Hstrip : forall (l : string) (ls : list string),
            String.eqb l "Submit" = false ->
            exists ls',
              (if String.eqb (List.last (l :: ls) "") "Submit"
               then removelast (l :: ls) else l :: ls) = l :: ls').
  { intros l ls Hl. destruct (list_snoc_cases ls) as [-> | (k & y & ->)].
    - cbn [List.last]. rewrite Hl. eauto.
    - change (l :: k ++ [y]) with ((l :: k) ++ [y]).
      rewrite last_last, removelast_last.
      destruct (String.eqb y "Submit"); cbn [app]; eauto. }
  pose proof Hm as Hm'. apply methodSafe_slash in Hm'.
  unfold methodSafe in Hm. apply andb_prop in Hm as [Hml _].
  split.
  - rewrite NewMessage_unlines; [| | discriminate].
    + destruct (Hstrip ("Seq=" +:+ x) rest eq_refl) as [ls' ->].
      unfold NewMessage_sequence. rewrite index_head, bind_Returns.
      change ("Seq=" +:+ x) with ("Seq" +:+ String "=" x).
      rewrite Cut_found by reflexivity.
      change (true && String.eqb "Seq" "Seq") with true. cbv iota.
      now rewrite Ha.
    + repeat apply Forall_cons_2; [exact Hv | | exact Hrest].
      now apply (lineSafe_app "Seq=").
  - rewrite NewMessage_unlines; [| | discriminate].
    + destruct (Hstrip ("Seq=" +:+ strconv.FormatInt seq)
                  (("RSP/" +:+ method +:+ "/" +:+ x) :: rest) eq_refl)
        as [ls' E].
      assert (exists ls'', ls' = ("RSP/" +:+ method +:+ "/" +:+ x) :: ls'')
        as [ls'' ->].
      { destruct (Hstrip ("RSP/" +:+ method +:+ "/" +:+ x) rest eq_refl)
          as [ls'' E'].
        exists ls''. revert E E'.
        change (List.last (("Seq=" +:+ strconv.FormatInt seq)
                           :: ("RSP/" +:+ method +:+ "/" +:+ x) :: rest) "")
          with (List.last (("RSP/" +:+ method +:+ "/" +:+ x) :: rest) "").
        destruct (String.eqb _ "Submit").
        - change (removelast (("Seq=" +:+ strconv.FormatInt seq)
                              :: ("RSP/" +:+ method +:+ "/" +:+ x) :: rest))
            with (("Seq=" +:+ strconv.FormatInt seq)
                  :: removelast (("RSP/" +:+ method +:+ "/" +:+ x) :: rest)).
          intros [= <-] E'. exact E'.
        - intros [= <-] E'. exact E'. }
      rewrite E, (NewMessage_sequence_Seq _ _ _ Hs).
      rewrite (NewMessage_method_RSP _ _ _ _ Hm'), Ha. reflexivity.
    + repeat apply Forall_cons_2; [exact Hv | | | exact Hrest].
      * apply (lineSafe_app "Seq="); [reflexivity | apply lineSafe_FormatInt].
      * apply (lineSafe_app "RSP/"); [reflexivity |].
        apply lineSafe_app; [exact Hml |]. now apply (lineSafe_app "/").
Qed.

(** A sequence value and a response code spelled out. *)
Lemma NewMessage_stops_at_bad_number_witness :
  NewMessage (unlines ["iRTSP/1.21"; "Seq=one"; "SET/START"; "sc=tls"; "Submit"])
  = Returns (Some (mkMessage "iRTSP/1.21" 0 "" 0 ∅))
  /\ NewMessage (unlines ["iRTSP/1.21"; "Seq=4"; "RSP/START/one"; "sc=tls";
                          "Submit"])
     = Returns (Some (mkMessage "iRTSP/1.21" 4 "START" 0 ∅)).
Proof.
  destruct (NewMessage_stops_at_bad_number "iRTSP/1.21" "START" "one" 4
              ["SET/START"; "sc=tls"; "Submit"])
    as [H1 _]; try reflexivity; [repeat constructor |].
  destruct (NewMessage_stops_at_bad_number "iRTSP/1.21" "START" "one" 4
              ["sc=tls"; "Submit"])
    as [_ H2]; try reflexivity; [repeat constructor |].
  split; [exact H1 | exact H2].
Defined.

(** ** What the encoder writes can always be decoded *)

Lemma countByte_app (a b : string) (c : ascii) :
  countByte (a +:+ b) c = (countByte a c + countByte b c)%nat.
Proof.
  induction a as [|x a IH]; [reflexivity |].
  rewrite string_app_cons. cbn [countByte]. rewrite IH. lia.
Qed.

Lemma length_Split (s : string) (sep : ascii) :
  length (strings.Split s sep) = S (countByte s sep).
Proof.
  induction s as [|x r IH]; [reflexivity |].
  cbn [strings.Split countByte]. destruct (Ascii.eqb x sep).
  - cbn [length]. now rewrite IH.
  - pose proof (Split_not_nil r sep).
    destruct (strings.Split r sep); [congruence |]. exact IH.
Qed.

(** Replacing CRLF by LF removes bytes CR only. *)
Lemma countByte_ReplaceAll2 (s : string) :
  countByte (strings.ReplaceAll2 s CR LF (String LF "")) LF = countByte s LF.
Proof.
  assert (H : countByte (strings.ReplaceAll2 s CR LF (String LF "")) LF
              = countByte s LF
              /\ forall x,
                   countByte (strings.ReplaceAll2 (String x s) CR LF (String LF ""))
                     LF
                   = countByte (String x s) LF); [| exact (proj1 H)].
  induction s as [|y r [IH0 IH1]].
  - split; [reflexivity | intros x; reflexivity].
  - split; [apply IH1 |]. intros x.
    destruct (Ascii.eqb_spec x CR) as [-> | Hx].
    + destruct (Ascii.eqb_spec y LF) as [-> | Hy].
      * rewrite ReplaceAll2_match, string_app_cons, string_app_nil_l.
        cbn [countByte]. now rewrite IH0.
      * rewrite ReplaceAll2_half by now apply Ascii.eqb_neq.
        cbn [countByte]. rewrite (IH1 y). reflexivity.
    + rewrite ReplaceAll2_other by now apply Ascii.eqb_neq.
      change (countByte (String x ?t) LF)
        with ((if Ascii.eqb x LF then 1 else 0) + countByte t LF)%nat.
      cbn [countByte]. rewrite (IH1 y). reflexivity.
Qed.

Lemma countByte_unlines (ls : list string) :
  (length ls <= countByte (unlines ls) LF)%nat.
Proof.
  induction ls as [|l ls IH]; [reflexivity |].
  rewrite unlines_cons, countByte_app. cbn [countByte length].
  change (Ascii.eqb CR LF) with false. change (Ascii.eqb LF LF) with true.
  cbv iota. lia.
Qed.

(** The text before a line break is rewritten on its own, whatever
    follows. *)
Lemma ReplaceAll2_after_LF (pre : string) :
  exists q, forall rest,
    strings.ReplaceAll2 (pre +:+ String LF rest) CR LF (String LF "")
    = q +:+ String LF (strings.ReplaceAll2 rest CR LF (String LF "")).
Proof.
  assert (H : (exists q, forall rest,
                 strings.ReplaceAll2 (pre +:+ String LF rest) CR LF (String LF "")
                 = q +:+ String LF (strings.ReplaceAll2 rest CR LF (String LF "")))
              /\ (forall x, exists q, forall rest,
                 strings.ReplaceAll2 (String x pre +:+ String LF rest) CR LF
                   (String LF "")
                 = q +:+ String LF
                           (strings.ReplaceAll2 rest CR LF (String LF ""))));
    [| exact (proj1 H)].
  induction pre as [|y r [IH0 IH1]].
  - assert (B : forall rest,
                strings.ReplaceAll2 (String LF rest) CR LF (String LF "")
                = String LF (strings.ReplaceAll2 rest CR LF (String LF "")))
      by (intros rest; now rewrite ReplaceAll2_other).
    split.
    + exists "". intros rest. rewrite !string_app_nil_l. apply B.
    + intros x. destruct (Ascii.eqb_spec x CR) as [-> | Hne].
      * exists "". intros rest.
        now rewrite string_app_cons, !string_app_nil_l, ReplaceAll2_match.
      * exists (String x ""). intros rest.
        rewrite !string_app_cons, !string_app_nil_l.
        rewrite ReplaceAll2_other by now apply Ascii.eqb_neq.
        now rewrite B.
  - split; [apply IH1 |].
    intros x. destruct (Ascii.eqb_spec x CR) as [-> | Hne].
    + destruct (Ascii.eqb_spec y LF) as [-> | Hy].
      * destruct IH0 as [q Hq]. exists (String LF q). intros rest.
        now rewrite !string_app_cons, ReplaceAll2_match, Hq.
      * destruct (IH1 y) as [q Hq]. exists (String CR q). intros rest.
        rewrite !string_app_cons, ReplaceAll2_half by now apply Ascii.eqb_neq.
        now rewrite <- (string_app_cons y r), Hq.
    + destruct (IH1 y) as [q Hq]. exists (String x q). intros rest.
      rewrite string_app_cons.
      rewrite ReplaceAll2_other by now apply Ascii.eqb_neq.
      now rewrite Hq.
Qed.

(** X4. Whatever the message holds, line breaks and delimiters included, and
    whatever the order of its headers, the bytes [ToBytes] writes make
    [NewMessage] return a message: the decoder never panics on the output of
    the encoder. *)
Theorem ToBytes_always_decodes
    (range_order : gmap string string -> list (string * string))
    (m : Message) :
  exists m', NewMessage (ToBytes range_order m) = Returns (Some m').
Proof.
  pose proof (NewMessage_decodable (ToBytes range_order m)) as Hdec.
  assert (E : exists P,
            strings.Split
              (strings.ReplaceAll2 (ToBytes range_order m) CR LF (String LF ""))
              LF = P ++ ["Submit"; ""]
            /\ (3 <= length P)%nat).
  { pose proof (length_Split
                  (strings.ReplaceAll2 (ToBytes range_order m) CR LF
                     (String LF "")) LF) as Hlen.
    rewrite countByte_ReplaceAll2 in Hlen.
    rewrite ToBytes_unlines in *.
    set (L0 := Version m :: ("Seq=" +:+ strconv.FormatInt (Sequence m))
               :: methodLine m :: map headerLine (range_order (Headers m))).
    change (Version m :: ("Seq=" +:+ strconv.FormatInt (Sequence m))
            :: methodLine m
            :: map headerLine (range_order (Headers m)) ++ ["Submit"])
      with (L0 ++ ["Submit"]) in *.
    pose proof (countByte_unlines (L0 ++ ["Submit"])) as Hcount.
    rewrite length_app in Hcount. cbn [length] in Hcount.
    destruct (list_snoc_cases L0) as [E0 | (L' & x & E0)]; [discriminate E0 |].
    assert (Ebytes : unlines (L0 ++ ["Submit"])
                     = (unlines L' +:+ x +:+ String CR "")
                       +:+ String LF ("Submit" +:+ CRLF)).
    { rewrite unlines_snoc, E0, unlines_snoc, !string_app_assoc. reflexivity. }
    destruct (ReplaceAll2_after_LF (unlines L' +:+ x +:+ String CR ""))
      as [q Hq].
    rewrite Ebytes, Hq in *. rewrite Split_app in *.
    change (strings.Split
              (strings.ReplaceAll2 ("Submit" +:+ CRLF) CR LF (String LF "")) LF)
      with ["Submit"; ""] in *.
    exists (strings.Split q LF). split; [reflexivity |].
    rewrite length_app in Hlen. cbn [length] in Hlen.
    subst L0. cbn [length] in Hcount. lia. }
  destruct E as (P & E & HP). unfold decodable in Hdec. rewrite E in Hdec.
  change (P ++ ["Submit"; ""]) with (P ++ ["Submit"] ++ [""]) in Hdec.
  rewrite app_assoc, removelast_last, last_last, removelast_last in Hdec.
  change (String.eqb "Submit" "Submit") with true in Hdec. cbv iota in Hdec.
  destruct P as [|p1 [|p2 [|p3 P]]]; cbn [length] in HP; try lia.
  destruct (strings.Cut p2 "=") as [[seqField seqValue] found].
  destruct (found && String.eqb seqField "Seq"); [| exact Hdec].
  destruct (strconv.Atoi seqValue); exact Hdec.
Qed.

(** ** Re-encoding in the session *)

Lemma strlen_app_cons (a : string) (c : ascii) (r : string) :
  (0 <? strlen (a +:+ String c r)) = true.
Proof.
  unfold strlen. apply Z.ltb_lt.
  destruct a as [|x a]; rewrite ?string_app_nil_l, ?string_app_cons;
    simpl String.length; apply (inj_lt 0); apply Nat.lt_0_succ.
Qed.

Lemma strlen_ToBytes
    (range_order : gmap string string -> list (string * string))
    (m : Message) :
  (0 <? strlen (ToBytes range_order m)) = true.
Proof. rewrite ToBytes_unlines, unlines_cons. apply strlen_app_cons. Qed.

(** The client-to-server half of an iteration on bytes that decode. *)
Lemma clientToServer_decoded
    (range_order : gmap string string -> list (string * string))
    (s : Session) (env : RoundEnv) (req : Message) :
  terminalErr (rd_err (clientRead env)) = false ->
  NewMessage (rd_data (clientRead env)) = Returns (Some req) ->
  clientToServer range_order s env
  = mkM [EvWrite (serverConn s) (ToBytes range_order req)]
      (Returns (if isErr (serverWriteErr env) then Break else Continue s)).
Proof.
  intros Hrd Hdec. unfold clientToServer. rewrite Hrd.
  destruct (0 <? strlen (rd_data (clientRead env))) eqn:Hlen.
  - rewrite Hdec, M_bind_lift_Returns. cbn [deref].
    rewrite M_bind_lift_Returns, M_bind_emit.
    destruct (isErr (serverWriteErr env)); reflexivity.
  - exfalso. destruct (rd_data (clientRead env)); [| discriminate Hlen].
    vm_compute in Hdec. discriminate Hdec.
Qed.

(** X5. A response whose code is zero or negative is decoded with that code,
    and [ToBytes], which writes the response line only for a code above zero,
    writes it back as a request: the session forwards [RSP/<method>/<code>]
    as [SET/<method>]. *)
Theorem response_without_positive_code_forwarded_as_request
    (range_order : gmap string string -> list (string * string))
    (s : Session) (env : RoundEnv)
    (version method : string) (seq code : Z) (hs : list (string * string)) :
  lineSafe version = true ->
  strconv.int_range seq = true ->
  methodSafe method = true ->
  strconv.int_range code = true ->
  code <= 0 ->
  Forall (fun hv : string * string => keySafe hv.1 = true /\ lineSafe hv.2 = true)
    hs ->
  terminalErr (rd_err (clientRead env)) = false ->
  rd_data (clientRead env)
  = unlines (version
             :: ("Seq=" +:+ strconv.FormatInt seq)
             :: ("RSP/" +:+ method +:+ "/" +:+ strconv.FormatInt code)
             :: map headerLine hs ++ ["Submit"]) ->
  exists m,
    NewMessage (rd_data (clientRead env)) = Returns (Some m)
    /\ Method m = method /\ Code m = code
    /\ trace (clientToServer range_order s env)
       = [EvWrite (serverConn s)
            (unlines (version
                      :: ("Seq=" +:+ strconv.FormatInt seq)
                      :: ("SET/" +:+ method)
                      :: map headerLine (range_order (Headers m))
                         ++ ["Submit"]))].
Proof.
  intros Hv Hs Hm Hc Hle Hh Hrd Hdata.
  destruct (Forall_lineSafe_headers hs Hh) as [Hl Hk].
  pose proof (methodSafe_slash _ Hm) as Hslash.
  unfold methodSafe in Hm. apply andb_prop in Hm as [Hml _].
  assert (Hdec : NewMessage (rd_data (clientRead env))
                 = Returns (Some (mkMessage version seq method code
                     (fold_left
                        (fun (headers : gmap string string) hv =>
                           <[hv.1 := hv.2]> headers) hs ∅)))).
  { rewrite Hdata, NewMessage_unlines; [| | discriminate].
    - change (("Seq=" +:+ strconv.FormatInt seq)
              :: ("RSP/" +:+ method +:+ "/" +:+ strconv.FormatInt code)
              :: map headerLine hs ++ ["Submit"])
        with ((("Seq=" +:+ strconv.FormatInt seq)
               :: ("RSP/" +:+ method +:+ "/" +:+ strconv.FormatInt code)
               :: map headerLine hs) ++ ["Submit"]).
      rewrite last_last, removelast_last.
      change (String.eqb "Submit" "Submit") with true. cbv iota.
      rewrite (NewMessage_sequence_Seq _ _ _ Hs).
      rewrite (NewMessage_method_RSP _ _ _ _ Hslash), (Atoi_FormatInt _ Hc).
      unfold NewMessage_headers. rewrite (decode_headers _ _ Hk). reflexivity.
    - repeat apply Forall_cons_2.
      + exact Hv.
      + apply (lineSafe_app "Seq="); [reflexivity | apply lineSafe_FormatInt].
      + apply (lineSafe_app "RSP/"); [reflexivity |].
        apply lineSafe_app; [exact Hml |].
        apply (lineSafe_app "/"); [reflexivity | apply lineSafe_FormatInt].
      + apply Forall_app_2; [exact Hl | now repeat constructor]. }
  eexists. split; [exact Hdec |]. split; [reflexivity |].
  split; [reflexivity |].
  rewrite (clientToServer_decoded range_order s env _ Hrd Hdec). cbn [trace].
  rewrite ToBytes_unlines. unfold methodLine.
  cbn [Version Sequence Method Code Headers].
  destruct (Z.ltb_spec 0 code); [lia | reflexivity].
Qed.

(** A response with code 0. *)
Lemma response_without_positive_code_forwarded_as_request_witness :
  let env := mkRound
               (mkRead (unlines ["iRTSP/1.21"; "Seq=9"; "RSP/PLAY/0"; "t=1";
                                 "Submit"]) None ErrNil)
               ErrNil (mkRead "" None ErrDeadlineExceeded) ErrNil
               (fun _ => ErrNil) in
  let s := mkSession (Plain (mkEndpoint "client" None))
             (Plain (mkEndpoint "server" None)) in
  trace (clientToServer map_to_list s env)
  = [EvWrite (serverConn s)
       (unlines ["iRTSP/1.21"; "Seq=9"; "SET/PLAY"; "t=1"; "Submit"])].
Proof.
  intros env s.
  destruct (response_without_positive_code_forwarded_as_request map_to_list
              s env "iRTSP/1.21" "PLAY" 9 0 [("t", "1")])
    as (m & Hdec & _ & _ & Htr);
    [reflexivity | reflexivity | reflexivity | reflexivity | lia
    | repeat constructor | reflexivity | reflexivity |].
  rewrite Htr.
  assert (m = mkMessage "iRTSP/1.21" 9 "PLAY" 0 (<["t" := "1"]> ∅)) as ->.
  { assert (H : NewMessage (rd_data (clientRead env))
                = Returns (Some (mkMessage "iRTSP/1.21" 9 "PLAY" 0
                                   (<["t" := "1"]> ∅))))
      by (vm_compute; reflexivity).
    rewrite H in Hdec. now injection Hdec as <-. }
  vm_compute. reflexivity.
Defined.

Section Transparency.

Variable range_order : gmap string string -> list (string * string).
Hypothesis range_order_perm : forall h, range_order h ≡ₚ map_to_list h.
Variable disableTLS : bool.




End Transparency.


(** ** The session loop *)

Lemma result_bind {A B} (x : M A) (k : A -> M B) :
  result (x ≫= k)
  = match result x with
    | Returns a => result (k a)
    | Panics p => Panics p
    end.
Proof. unfold mbind, M_bind. now destruct (result x). Qed.

Lemma trace_bind {A B} (x : M A) (k : A -> M B) :
  trace (x ≫= k)
  = trace x ++ match result x with
               | Returns a => trace (k a)
               | Panics _ => []
               end.
Proof.
  unfold mbind, M_bind. destruct (result x); cbn [trace]; [reflexivity |].
  now rewrite app_nil_r.
Qed.

Lemma writes_app (evs evs' : list Event) :
  writes (evs ++ evs') = writes evs ++ writes evs'.
Proof. unfold writes. apply omap_app. Qed.

Lemma closes_app (evs evs' : list Event) :
  closes (evs ++ evs') = closes evs ++ closes evs'.
Proof. unfold closes. apply omap_app. Qed.

(** The spawner returns on a descriptor with a [/] and panics on any other;
    it writes to no connection and closes none. *)
Lemma startMediaConnection_result (header kind : string) (bindErr : error) :
  result (startMediaConnection header kind bindErr)
  = if hasTransport header then Returns tt
    else Panics (IndexOutOfRange (-1) 1).
Proof.
  destruct (hasTransport header) eqn:H.
  - apply startMediaConnection_returns, H.
  - unfold startMediaConnection. now rewrite (Split_no_sep header "/" H).
Qed.

Lemma startMediaConnection_quiet (header kind : string) (bindErr : error) :
  writes (trace (startMediaConnection header kind bindErr)) = []
  /\ closes (trace (startMediaConnection header kind bindErr)) = [].
Proof.
  unfold startMediaConnection. rewrite M_bind_emit. cbn [trace writes closes omap].
  destruct (slice.index _ (_ - 1)) as [port | p]; [| split; reflexivity].
  rewrite M_bind_lift_Returns.
  destruct (slice.index _ (_ - 2)) as [network | p]; [| split; reflexivity].
  rewrite M_bind_lift_Returns.
  destruct (String.eqb network "ust");
    [| destruct (isErr bindErr); split; reflexivity].
  destruct (strconv.Atoi port), (isErr bindErr); split; reflexivity.
Qed.

Lemma onSETUP_result (res : Message) (bindErr : string -> error) :
  String.eqb (Method res) "SETUP" = true ->
  result (onSETUP res bindErr)
  = if spawnSafe res then Returns tt else Panics (IndexOutOfRange (-1) 1).
Proof.
  intros Hm. unfold onSETUP, spawnSafe. rewrite Hm.
  set (v := mapIndex (Headers res) "v"). set (a := mapIndex (Headers res) "a").
  set (c := mapIndex (Headers res) "c").
  rewrite result_bind, startMediaConnection_result.
  destruct (hasTransport v); [| reflexivity]. cbn [andb].
  rewrite result_bind.
  destruct (String.eqb a v); cbn [negb orb andb].
  - cbn [result mret M_ret].
    destruct (String.eqb c v); cbn [negb orb andb]; [reflexivity |].
    destruct (String.eqb c a); cbn [negb orb andb]; [reflexivity |].
    apply startMediaConnection_result.
  - rewrite startMediaConnection_result.
    destruct (hasTransport a); [| reflexivity]. cbn [andb].
    destruct (String.eqb c v); cbn [negb orb andb]; [reflexivity |].
    destruct (String.eqb c a); cbn [negb orb andb]; [reflexivity |].
    apply startMediaConnection_result.
Qed.

Lemma quiet_bind {A B} (x : M A) (k : A -> M B) :
  writes (trace x) = [] /\ closes (trace x) = [] ->
  (forall a, writes (trace (k a)) = [] /\ closes (trace (k a)) = []) ->
  writes (trace (x ≫= k)) = [] /\ closes (trace (x ≫= k)) = [].
Proof.
  intros [Hw Hc] Hk. rewrite trace_bind, writes_app, closes_app, Hw, Hc.
  destruct (result x) as [a | p]; [apply Hk | now split].
Qed.

Lemma onSETUP_quiet (res : Message) (bindErr : string -> error) :
  writes (trace (onSETUP res bindErr)) = []
  /\ closes (trace (onSETUP res bindErr)) = [].
Proof.
  unfold onSETUP. destruct (String.eqb (Method res) "SETUP"); [| now split].
  apply quiet_bind; [apply startMediaConnection_quiet | intros _].
  apply quiet_bind.
  - destruct (negb _); [apply startMediaConnection_quiet | now split].
  - intros _. destruct (_ && _); [apply startMediaConnection_quiet | now split].
Qed.

Lemma onKNOCK_result (res : Message) (bindErr : string -> error) :
  String.eqb (Method res) "SETUP" = false ->
  result (onKNOCK res bindErr)
  = if spawnSafe res then Returns tt else Panics (IndexOutOfRange (-1) 1).
Proof.
  intros Hm. unfold onKNOCK, spawnSafe. rewrite Hm.
  destruct (String.eqb (Method res) "KNOCK"); [| reflexivity].
  apply startMediaConnection_result.
Qed.

Lemma onKNOCK_quiet (res : Message) (bindErr : string -> error) :
  writes (trace (onKNOCK res bindErr)) = []
  /\ closes (trace (onKNOCK res bindErr)) = [].
Proof.
  unfold onKNOCK. destruct (String.eqb (Method res) "KNOCK"); [| now split].
  apply startMediaConnection_quiet.
Qed.

Section SessionLoop.

Variable range_order : gmap string string -> list (string * string).
Variable disableTLS : bool.

(** X7. For a message decoded from the destination, the session panics
    exactly when a descriptor it hands to the spawner has no [/]: [v] of a
    [SETUP], [a] and [c] when they are spawned (a missing [a] or [c] is the
    empty descriptor), the trimmed [p] of a [KNOCK]. Then nothing is written
    to the client. Otherwise the message is written to the client once, and
    the iteration ends by the result of that write. *)
Theorem serverToClient_panics_iff_unsafe_descriptor (s : Session)
    (env : RoundEnv) (res : Message) :
  terminalErr (rd_err (serverRead env)) = false ->
  NewMessage (rd_data (serverRead env)) = Returns (Some res) ->
  result (serverToClient range_order disableTLS s env)
  = (if spawnSafe res
     then Returns (if isErr (clientWriteErr env) then Break
                   else Continue (upgradeTLS disableTLS res s))
     else Panics (IndexOutOfRange (-1) 1))
  /\ writes (trace (serverToClient range_order disableTLS s env))
     = (if spawnSafe res
        then [(conn s, ToBytes range_order (onSTART disableTLS res))]
        else []).
Proof.
  intros Hrd Hdec.
  rewrite (serverToClient_decoded range_order disableTLS s env res Hrd Hdec).
  assert (Hup : upgradeTLS disableTLS (onSTART disableTLS res) s
                = upgradeTLS disableTLS res s)
    by (unfold upgradeTLS; now rewrite Method_onSTART).
  rewrite Hup.
  assert (Hside : result (onSETUP res (listenErr env);;
                          onKNOCK res (listenErr env))
                  = (if spawnSafe res then Returns tt
                     else Panics (IndexOutOfRange (-1) 1))
                  /\ writes (trace (onSETUP res (listenErr env);;
                                    onKNOCK res (listenErr env))) = []).
  { split; [| apply quiet_bind; [apply onSETUP_quiet | intros _; apply onKNOCK_quiet]].
    rewrite result_bind.
    destruct (String.eqb (Method res) "SETUP") eqn:Hm.
    - rewrite (onSETUP_result res _ Hm).
      destruct (spawnSafe res); [| reflexivity].
      rewrite onKNOCK_other; [reflexivity |].
      apply String.eqb_eq in Hm. now rewrite Hm.
    - rewrite (onSETUP_other res _ Hm). cbn [result mret M_ret].
      apply (onKNOCK_result res _ Hm). }
  destruct Hside as [Hres Hwr].
  change (onSETUP res (listenErr env);;
          onKNOCK res (listenErr env);;
          emit (EvWrite (conn s) (ToBytes range_order (onSTART disableTLS res)));;
          (if isErr (clientWriteErr env) then mret Break
           else mret (Continue (upgradeTLS disableTLS res s))))
    with (mbind (M := M)
            (fun _ : unit =>
               mbind (M := M)
                 (fun _ : unit =>
                    emit (EvWrite (conn s)
                            (ToBytes range_order (onSTART disableTLS res)));;
                    (if isErr (clientWriteErr env) then mret Break
                     else mret (Continue (upgradeTLS disableTLS res s))))
                 (onKNOCK res (listenErr env)))
            (onSETUP res (listenErr env))).
  assert (Hassoc : forall (x y : M unit) (z : M (LoopCtl Session)),
            result (x;; y;; z)
            = match result (x;; y) with
              | Returns _ => result z
              | Panics p => Panics p
              end
            /\ writes (trace (x;; y;; z))
               = writes (trace (x;; y))
                 ++ match result (x;; y) with
                    | Returns _ => writes (trace z)
                    | Panics _ => []
                    end).
  { intros x y z. rewrite !result_bind, !trace_bind, !writes_app.
    destruct (result x); [| split; [reflexivity | now rewrite !app_nil_r]].
    cbv beta. rewrite ?result_bind, ?trace_bind, ?writes_app.
    destruct (result y);
      split; try reflexivity; now rewrite ?app_assoc, ?app_nil_r. }
  destruct (Hassoc (onSETUP res (listenErr env)) (onKNOCK res (listenErr env))
              (emit (EvWrite (conn s)
                       (ToBytes range_order (onSTART disableTLS res)));;
               (if isErr (clientWriteErr env) then mret Break
                else mret (Continue (upgradeTLS disableTLS res s)))))
    as [-> ->].
  rewrite Hres, Hwr. destruct (spawnSafe res); [| split; reflexivity].
  rewrite M_bind_emit. cbn [result trace writes omap app].
  destruct (isErr (clientWriteErr env)); split; reflexivity.
Qed.

End SessionLoop.

(** A [SETUP] response that names the video channel only: the missing [a] is
    handed to the spawner as the empty descriptor. *)
Lemma serverToClient_panics_iff_unsafe_descriptor_witness :
  let env := mkRound (mkRead "" None ErrDeadlineExceeded) ErrNil
               (mkRead (unlines ["iRTSP/1.21"; "Seq=2"; "RSP/SETUP/200";
                                 "v=iDataChunk/unicast/tcp/40603"; "Submit"])
                  None ErrNil) ErrNil (fun _ => ErrNil) in
  let s := mkSession (Plain (mkEndpoint "client" None))
             (Plain (mkEndpoint "server" None)) in
  result (serverToClient map_to_list false s env)
  = Panics (IndexOutOfRange (-1) 1)
  /\ writes (trace (serverToClient map_to_list false s env)) = [].
Proof.
  intros env s.
  destruct (serverToClient_panics_iff_unsafe_descriptor map_to_list false s env
              (mkMessage "iRTSP/1.21" 2 "SETUP" 200
                 (<["v" := "iDataChunk/unicast/tcp/40603"]> ∅)))
    as [Hr Hw]; [reflexivity | vm_compute; reflexivity |].
  rewrite Hr, Hw. split; vm_compute; reflexivity.
Defined.

Lemma closes_bind {A B} (x : M A) (k : A -> M B) :
  closes (trace x) = [] ->
  (forall a, closes (trace (k a)) = []) ->
  closes (trace (x ≫= k)) = [].
Proof.
  intros Hc Hk. rewrite trace_bind, closes_app, Hc.
  destruct (result x) as [a | p]; [apply Hk | reflexivity].
Qed.

Section SessionRuns.

Variable range_order : gmap string string -> list (string * string).
Variables (serverAddress serverPort : string) (disableTLS : bool).

(** X8. A message from the client is forwarded and nothing else, whatever its
    method: the client-to-server half of an iteration writes at most once,
    the re-encoded message to the destination, calls the spawner never, and
    leaves the connections of the session as they are. *)
Theorem clientToServer_only_forwards (s : Session) (env : RoundEnv) :
  (trace (clientToServer range_order s env) = []
   \/ exists req,
        NewMessage (rd_data (clientRead env)) = Returns (Some req)
        /\ trace (clientToServer range_order s env)
           = [EvWrite (serverConn s) (ToBytes range_order req)])
  /\ spawnCalls (trace (clientToServer range_order s env)) = []
  /\ forall s',
       result (clientToServer range_order s env) = Returns (Continue s') ->
       s' = s.
Proof.
  assert (H : trace (clientToServer range_order s env) = []
              \/ exists req,
                   NewMessage (rd_data (clientRead env)) = Returns (Some req)
                   /\ trace (clientToServer range_order s env)
                      = [EvWrite (serverConn s) (ToBytes range_order req)]).
  { unfold clientToServer.
    destruct (terminalErr _); [now left |].
    destruct (0 <? strlen _); [| now left].
    destruct (NewMessage _) as [[req |] | p]; [| now left | now left].
    right. exists req. split; [reflexivity |].
    rewrite M_bind_lift_Returns. cbn [deref].
    rewrite M_bind_lift_Returns, M_bind_emit.
    destruct (isErr _); reflexivity. }
  split; [exact H |]. split.
  - destruct H as [-> | (req & _ & ->)]; reflexivity.
  - intros s'. apply clientToServer_Continue.
Qed.

Lemma clientToServer_no_close (s : Session) (env : RoundEnv) :
  closes (trace (clientToServer range_order s env)) = [].
Proof.
  unfold clientToServer.
  destruct (terminalErr _); [reflexivity |].
  destruct (0 <? strlen _); [| reflexivity].
  apply closes_bind; [reflexivity | intros req].
  apply closes_bind; [reflexivity | intros req'].
  apply closes_bind; [reflexivity | intros _].
  destruct (isErr _); reflexivity.
Qed.

Lemma serverToClient_no_close (s : Session) (env : RoundEnv) :
  closes (trace (serverToClient range_order disableTLS s env)) = [].
Proof.
  unfold serverToClient.
  destruct (terminalErr _); [reflexivity |].
  destruct (0 <? strlen _); [| reflexivity].
  apply closes_bind; [reflexivity | intros res].
  apply closes_bind; [reflexivity | intros res'].
  apply closes_bind; [apply onSETUP_quiet | intros _].
  apply closes_bind; [apply onKNOCK_quiet | intros _].
  apply closes_bind; [reflexivity | intros _].
  destruct (isErr _); reflexivity.
Qed.

Lemma rounds_no_close (s : Session) (envs : list RoundEnv) :
  closes (trace (rounds range_order disableTLS s envs)) = [].
Proof.
  revert s. induction envs as [|env rest IH]; intros s; [reflexivity |].
  cbn [rounds]. apply closes_bind.
  - unfold round. apply closes_bind; [apply clientToServer_no_close |].
    intros [s1 |]; [apply serverToClient_no_close | reflexivity].
  - intros [s1 |]; [apply IH | reflexivity].
Qed.

(** X9. The session closes its two connections when the loop is left, and
    only then: as long as the loop runs nothing is closed; when it is left,
    by [break] or by a panic, the destination connection and then the client
    connection are closed, once each, and it is the connections as accepted
    and dialed that are closed, also after a TLS upgrade. When the dial
    fails, the client connection alone is closed. *)
Theorem handleIRTSPConnection_closes_both_legs_on_exit (conn0 : Conn)
    (dialed : option Conn) (envs : list RoundEnv) :
  closes (trace (handleIRTSPConnection range_order serverAddress serverPort
                   disableTLS conn0 dialed envs))
  = match dialed with
    | None => [conn0]
    | Some serverConn0 =>
        match result (rounds range_order disableTLS
                        (mkSession conn0 serverConn0) envs) with
        | Returns (Continue _) => []
        | _ => [serverConn0; conn0]
        end
    end.
Proof.
  unfold handleIRTSPConnection. destruct dialed as [serverConn0 |];
    [| reflexivity].
  pose proof (rounds_no_close (mkSession conn0 serverConn0) envs) as Hq.
  destruct (result (rounds _ _ _ envs)) as [[s' |] | p]; cbn [trace].
  - change (closes (EvDial ?n ?a :: ?t)) with (closes t). exact Hq.
  - change (closes (EvDial ?n ?a :: ?t)) with (closes t).
    now rewrite closes_app, Hq.
  - change (closes (EvDial ?n ?a :: ?t)) with (closes t).
    now rewrite closes_app, Hq.
Qed.

(** What an iteration that goes on leaves behind: the wrapped connections
    after a [START] message from the destination, the same session
    otherwise. *)
Lemma round_Continue_session (s : Session) (env : RoundEnv) (s' : Session) :
  result (round range_order disableTLS s env) = Returns (Continue s') ->
  s' = if readsSTART env
       then mkSession (if negb disableTLS then TLSServer (conn s) else conn s)
              (TLSClient (serverConn s))
       else s.
Proof.
  intros H%round_Continue.
  assert (Hrd : terminalErr (rd_err (serverRead env)) = false).
  { destruct (terminalErr _) eqn:E; [| reflexivity].
    unfold serverToClient in H. rewrite E in H. discriminate H. }
  unfold readsSTART.
  destruct (NewMessage (rd_data (serverRead env))) as [[res |] | p] eqn:Hdec.
  - destruct (String.eqb_spec (Method res) "START") as [Hm | Hm].
    + rewrite (serverToClient_START range_order disableTLS s env res Hrd Hdec Hm)
        in H.
      cbn [result] in H. destruct (isErr _); [discriminate H |].
      now injection H as <-.
    + apply serverToClient_Continue in H as [-> | (res' & Hdec' & ->)];
        [reflexivity |].
      rewrite Hdec in Hdec'. injection Hdec' as <-.
      unfold upgradeTLS. apply String.eqb_neq in Hm. now rewrite Hm.
  - apply serverToClient_Continue in H as [-> | (res' & Hdec' & _)];
      [reflexivity | rewrite Hdec in Hdec'; discriminate Hdec'].
  - apply serverToClient_Continue in H as [-> | (res' & Hdec' & _)];
      [reflexivity | rewrite Hdec in Hdec'; discriminate Hdec'].
Qed.

(** X10. TLS wrappers are stacked, never replaced: over any number of
    iterations, the destination connection is wrapped by [tls.Client] once
    for every [START] message read from the destination, also for a second
    and a third one, and the client connection by [tls.Server] as often
    unless TLS is disabled; with TLS disabled the client connection stays
    the connection that was accepted. *)
Theorem rounds_stack_TLS_wrappers (s : Session) (envs : list RoundEnv)
    (s' : Session) :
  result (rounds range_order disableTLS s envs) = Returns (Continue s') ->
  let n := length (List.filter readsSTART envs) in
  tlsDepth (serverConn s') = (tlsDepth (serverConn s) + n)%nat
  /\ tlsDepth (conn s')
     = (tlsDepth (conn s) + if disableTLS then 0 else n)%nat
  /\ (disableTLS = true -> conn s' = conn s).
Proof.
  revert s. induction envs as [|env rest IH]; intros s H.
  - cbn in H. injection H as <-. cbn [List.filter length].
    destruct disableTLS; repeat split; lia.
  - cbn [rounds] in H. rewrite result_bind in H.
    destruct (result (round range_order disableTLS s env)) as [[s1 |] | p] eqn:E;
      [| discriminate H | discriminate H].
    apply round_Continue_session in E. specialize (IH s1 H).
    cbn [List.filter]. cbv zeta in IH |- *.
    destruct IH as (IH1 & IH2 & IH3).
    destruct (readsSTART env); subst s1; cbn [length conn serverConn tlsDepth] in *.
    + destruct disableTLS; cbn [negb tlsDepth] in *;
        repeat split; try lia; try discriminate.
      intros _. now apply IH3.
    + repeat split; try lia. exact IH3.
Qed.

End SessionRuns.

(** Two [START] responses in a row wrap both legs twice. *)
Lemma rounds_stack_TLS_wrappers_witness :
  let start := mkRound (mkRead "" None ErrDeadlineExceeded) ErrNil
                 (mkRead (unlines ["iRTSP/1.21"; "Seq=7"; "RSP/START/200";
                                   "Submit"]) None ErrNil) ErrNil
                                   (fun _ => ErrNil) in
  let s := mkSession (Plain (mkEndpoint "client" None))
             (Plain (mkEndpoint "server" None)) in
  exists s',
    result (rounds map_to_list false s [start; start]) = Returns (Continue s')
    /\ tlsDepth (serverConn s') = 2%nat /\ tlsDepth (conn s') = 2%nat.
Proof.
  intros start s.
  assert (H : result (rounds map_to_list false s [start; start])
              = Returns (Continue
                  (mkSession (TLSServer (TLSServer (conn s)))
                     (TLSClient (TLSClient (serverConn s))))))
    by (vm_compute; reflexivity).
  eexists. split; [exact H |].
  destruct (rounds_stack_TLS_wrappers map_to_list false s [start; start] _ H)
    as (H1 & H2 & _).
  split; [exact H1 | exact H2].
Defined.

(** ** The spawner on the descriptors it accepts *)

(** X11. The spawner reads the transport from the second-to-last segment of
    the descriptor and the port from the last one, whatever stands before
    them and however many segments there are; two segments are enough.
    Transport [ust] asks for a datagram socket, network ["udp"], on the port
    as a number, and for nothing when the port is not a number; any other
    transport is listened on under its own name, at [":<port>"]. A socket is
    bound, and a relay started on it, only when that call returns no error:
    when it fails the spawner returns with nothing bound. *)
Theorem startMediaConnection_reads_last_two_segments
    (pre network port kind : string) (bindErr : error) :
  strings.ContainsByte network "/" = false ->
  strings.ContainsByte port "/" = false ->
  let wanted :=
    if String.eqb network "ust"
    then match strconv.Atoi port with
         | Some portInt =>
             Some (EvBind (ListenUDP "udp" portInt) "udp" port kind)
         | None => None
         end
    else Some (EvBind (Listen network (":" +:+ port)) network port kind) in
  let bind :=
    match wanted with
    | Some bound => if isErr bindErr then [] else [bound]
    | None => []
    end in
  startMediaConnection (pre +:+ "/" +:+ network +:+ "/" +:+ port) kind bindErr
  = mkM (EvStartMedia (pre +:+ "/" +:+ network +:+ "/" +:+ port) kind :: bind)
      (Returns tt)
  /\ startMediaConnection (network +:+ "/" +:+ port) kind bindErr
     = mkM (EvStartMedia (network +:+ "/" +:+ port) kind :: bind) (Returns tt).
Proof.
  intros Hn Hp wanted bind.
  assert (G : forall (header : string) (l : list string),
            strings.Split header "/" = l ++ [network; port] ->
            startMediaConnection header kind bindErr
            = mkM (EvStartMedia header kind :: bind) (Returns tt)).
  { intros header l E. unfold startMediaConnection.
    rewrite M_bind_emit, E.
    assert (Hlast : slice.index (l ++ [network; port])
                      (slice.len (l ++ [network; port]) - 1) = Returns port).
    { change (l ++ [network; port]) with (l ++ [network] ++ [port]).
      rewrite app_assoc. apply index_last. }
    rewrite Hlast, M_bind_lift_Returns, index_second_last, M_bind_lift_Returns.
    subst bind wanted.
    destruct (String.eqb network "ust");
      [| now destruct (isErr bindErr)].
    destruct (strconv.Atoi port); [| reflexivity].
    now destruct (isErr bindErr). }
  assert (E2 : strings.Split (network +:+ "/" +:+ port) "/" = [network; port]).
  { change (network +:+ "/" +:+ port) with (network +:+ String "/" port).
    now rewrite (Split_line network port "/" Hn), (Split_no_sep _ _ Hp). }
  split.
  - apply (G _ (strings.Split pre "/")).
    change (pre +:+ "/" +:+ network +:+ "/" +:+ port)
      with (pre +:+ String "/" (network +:+ "/" +:+ port)).
    now rewrite Split_app, E2.
  - apply (G _ []). exact E2.
Qed.

(** The descriptors of the protocol documentation, a short one, and a port
    that cannot be bound. *)
Lemma startMediaConnection_reads_last_two_segments_witness :
  startMediaConnection "iDataChunk/unicast/tcp/40603" "VIDEO" ErrNil
  = mkM [EvStartMedia "iDataChunk/unicast/tcp/40603" "VIDEO";
         EvBind (Listen "tcp" ":40603") "tcp" "40603" "VIDEO"] (Returns tt)
  /\ startMediaConnection "ust/40604" "AUDIO" ErrNil
     = mkM [EvStartMedia "ust/40604" "AUDIO";
            EvBind (ListenUDP "udp" 40604) "udp" "40604" "AUDIO"] (Returns tt)
  /\ startMediaConnection "iDataChunk/unicast/ust/70000" "AUDIO" ErrOther
     = mkM [EvStartMedia "iDataChunk/unicast/ust/70000" "AUDIO"] (Returns tt).
Proof.
  destruct (startMediaConnection_reads_last_two_segments "iDataChunk/unicast"
              "tcp" "40603" "VIDEO" ErrNil eq_refl eq_refl) as [H1 _].
  destruct (startMediaConnection_reads_last_two_segments "" "ust" "40604"
              "AUDIO" ErrNil eq_refl eq_refl) as [_ H2].
  destruct (startMediaConnection_reads_last_two_segments "iDataChunk/unicast"
              "ust" "70000" "AUDIO" ErrOther eq_refl eq_refl) as [H3 _].
  split; [exact H1 | split; [exact H2 | exact H3]].
Defined.

(** X12. The spawner returns exactly on the descriptors that contain a [/]
    and panics on all others; in both cases it makes no write and closes no
    connection. *)
Theorem startMediaConnection_returns_iff_separator (header kind : string)
    (bindErr : error) :
  (hasTransport header = true
   <-> result (startMediaConnection header kind bindErr) = Returns tt)
  /\ (hasTransport header = false
      <-> result (startMediaConnection header kind bindErr)
          = Panics (IndexOutOfRange (-1) 1))
  /\ writes (trace (startMediaConnection header kind bindErr)) = []
  /\ closes (trace (startMediaConnection header kind bindErr)) = [].
Proof.
  rewrite startMediaConnection_result.
  destruct (startMediaConnection_quiet header kind bindErr) as [Hw Hc].
  split; [| split; [| split; [exact Hw | exact Hc]]].
  - destruct (hasTransport header); split; congruence.
  - destruct (hasTransport header); split; congruence.
Qed.

Section SetupSpawns.

Variable range_order : gmap string string -> list (string * string).
Variable disableTLS : bool.


End SetupSpawns.


(** ** The relay in stream mode *)

Section RelayRuns.

Variables (conn serverConn : Conn) (network : string).

Lemma relayStep_writes (r : Relay) (st : RelayStep) (evs : list Event)
    (r' : Relay) :
  String.eqb network "udp" = false ->
  relayStep conn serverConn network r st = Some (evs, r') ->
  writes evs = relayWrites conn serverConn [st].
Proof.
  intros Hn. unfold relayStep. destruct (returned r); [discriminate |].
  destruct st as [rd werr | rd werr |].
  - destruct (c2s_running r); [| discriminate].
    unfold copyClientToServer, relayWrites, forwarded. simpl omap.
    rewrite Hn. destruct (terminalErr _); [now intros [= <- <-] |].
    destruct (0 <? strlen _); [| now intros [= <- <-]].
    destruct (isErr werr); now intros [= <- <-].
  - destruct (s2c_running r); [| discriminate].
    unfold copyServerToClient, relayWrites, forwarded. simpl omap.
    rewrite Hn. destruct (terminalErr _); [now intros [= <- <-] |].
    destruct (0 <? strlen _); [| now intros [= <- <-]].
    destruct (isErr werr); now intros [= <- <-].
  - destruct (_ || _); [discriminate |]. now intros [= <- <-].
Qed.

(** X14. In stream mode the relay forwards what it reads, and nothing else:
    along any schedule of the two goroutines, the writes of the relay are, in
    the order of the schedule, one write for every read that delivered bytes
    without a terminal error, of exactly these bytes, to the destination
    connection for a read from the client and to the client connection for a
    read from the destination. *)
Theorem relay_forwards_reads_verbatim (r : Relay) (steps : list RelayStep)
    (evs : list Event) (r' : Relay) :
  String.eqb network "udp" = false ->
  relayRun conn serverConn network r steps = Some (evs, r') ->
  writes evs = relayWrites conn serverConn steps.
Proof.
  intros Hn. revert r evs. induction steps as [|st rest IH]; intros r evs.
  - now intros [= <- <-].
  - cbn [relayRun].
    destruct (relayStep conn serverConn network r st) as [[e1 r1] |] eqn:E1;
      [| discriminate].
    destruct (relayRun conn serverConn network r1 rest) as [[e2 r2] |] eqn:E2;
      [| discriminate].
    intros [= <- <-]. rewrite writes_app, (relayStep_writes _ _ _ _ Hn E1).
    rewrite (IH _ _ E2). unfold relayWrites. simpl omap.
    destruct (match st with
              | StepClientToServer rd _ =>
                  (fun b => (serverConn, b)) <$> forwarded rd
              | StepServerToClient rd _ => (fun b => (conn, b)) <$> forwarded rd
              | StepWaitReturns => None
              end); reflexivity.
Qed.



End RelayRuns.



(** Bytes in both directions, an idle read in between, and a read that
    fails. *)
Lemma relay_forwards_reads_verbatim_witness :
  let client := Plain (mkEndpoint "client" (Some "10.0.0.7:5000")) in
  let dest := Plain (mkEndpoint "dest" (Some "140.227.187.170:40603")) in
  let steps := [StepClientToServer (mkRead "ab" None ErrNil) ErrNil;
                StepServerToClient (mkRead "" None ErrDeadlineExceeded) ErrNil;
                StepServerToClient (mkRead "cd" None ErrNil) ErrNil;
                StepClientToServer (mkRead "" None ErrOther) ErrNil] in
  writes [EvWrite dest "ab"; EvWrite client "cd"]
  = [(dest, "ab"); (client, "cd")].
Proof.
  intros client dest steps.
  rewrite (relay_forwards_reads_verbatim client dest "tcp" relayStart steps
             [EvWrite dest "ab"; EvWrite client "cd"]
             (mkRelay false true false) eq_refl eq_refl).
  reflexivity.
Defined.

(** ** Startup: [main] *)

Lemma CutPrefix_found (p s : string) : strings.CutPrefix (p +:+ s) p = (s, true).
Proof.
  induction p as [|x p IH]; [rewrite string_app_nil_l; now destruct s |].
  rewrite string_app_cons. cbn [strings.CutPrefix].
  now rewrite Ascii.eqb_refl, IH.
Qed.

Lemma CutPrefix_cases (s p after : string) (found : bool) :
  strings.CutPrefix s p = (after, found) ->
  if found then s = p +:+ after else after = s.
Proof.
  revert s after found. induction p as [|x p IH]; intros s after found.
  - destruct s; cbn [strings.CutPrefix]; intros [= <- <-];
      now rewrite string_app_nil_l.
  - destruct s as [|y s]; cbn [strings.CutPrefix]; [now intros [= <- <-] |].
    destruct (Ascii.eqb_spec y x) as [-> |]; [| now intros [= <- <-]].
    destruct (strings.CutPrefix s p) as [after' [|]] eqn:E.
    + intros [= <- <-]. apply IH in E. rewrite string_app_cons. now f_equal.
    + now intros [= <- <-].
Qed.

(** X16. The destination of the proxy is read from PONSE_SERVER_URI by
    dropping an [irtsp://] scheme when there is one and cutting at the first
    colon after it: for a host without a colon, [irtsp://host:port] gives
    the host and the port (whatever the port text is, further colons
    included), and so does [host:port] without a scheme unless the host is
    the word [irtsp] itself. *)
Theorem main_serverURI_splits_host_and_port (host port : string) :
  strings.ContainsByte host ":" = false ->
  main_serverURI ("irtsp://" +:+ host +:+ String ":" port) = (host, port)
  /\ (host <> "irtsp" ->
      main_serverURI (host +:+ String ":" port) = (host, port)).
Proof.
  intros Hhost. unfold main_serverURI. split.
  - rewrite CutPrefix_found. now rewrite (Cut_found host port ":" Hhost).
  - intros Hne.
    destruct (strings.CutPrefix (host +:+ String ":" port) "irtsp://")
      as [after found] eqn:E.
    apply CutPrefix_cases in E. destruct found.
    + exfalso. apply Hne.
      assert (Hcut : strings.Cut (host +:+ String ":" port) ":"
                     = strings.Cut ("irtsp" +:+ String ":" ("//" +:+ after)) ":")
        by (rewrite E; reflexivity).
      rewrite (Cut_found host port ":" Hhost) in Hcut.
      rewrite (Cut_found "irtsp" _ ":" eq_refl) in Hcut.
      now injection Hcut.
    + subst after. now rewrite (Cut_found host port ":" Hhost).
Qed.

(** The address of the comment in [main]. *)
Lemma main_serverURI_splits_host_and_port_witness :
  main_serverURI "irtsp://140.227.187.170:41002" = ("140.227.187.170", "41002").
Proof.
  exact (proj1 (main_serverURI_splits_host_and_port "140.227.187.170" "41002"
                  eq_refl)).
Defined.

(** With TLS disabled the client connection of a session stays the accepted
    one. *)
Lemma rounds_conn_TLS_disabled
    (range_order : gmap string string -> list (string * string))
    (s : Session) (envs : list RoundEnv) (s' : Session) :
  result (rounds range_order true s envs) = Returns (Continue s') ->
  conn s' = conn s.
Proof.
  revert s. induction envs as [|env rest IH]; intros s H.
  - cbn in H. now injection H as <-.
  - cbn [rounds] in H. rewrite result_bind in H.
    destruct (result (round range_order true s env)) as [[s1 |] | p] eqn:E;
      [| discriminate H | discriminate H].
    apply round_Continue_session in E. rewrite (IH s1 H). subst s1.
    now destruct (readsSTART env).
Qed.

(** X17. [main] reaches [net.Listen] only after [godotenv.Load] has
    succeeded; it listens on the port of the destination, on every
    interface; and a session it starts wraps the client connection by
    [tls.Server] only when [main] has loaded the key pair into the
    configuration: with PONSE_DISABLE_TLS set, the client connection of
    every later iteration is the accepted one. *)
Theorem main_loads_key_pair_for_every_TLS_server
    (dotenvErr : bool) (getenv : string -> string) (keyPairErr : bool)
    (disableTLS certificates : bool) (serverAddress serverPort : string)
    (listen : Bind) :
  main dotenvErr getenv keyPairErr
  = MainListen disableTLS certificates serverAddress serverPort listen ->
  dotenvErr = false
  /\ listen = Listen "tcp" (String ":" serverPort)
  /\ forall range_order conn0 serverConn0 envs s',
       result (handleIRTSPConnection range_order serverAddress serverPort
                 disableTLS conn0 (Some serverConn0) envs)
       = Returns (Continue s') ->
       conn s' <> conn0 ->
       certificates = true /\ keyPairErr = false.
Proof.
  unfold main. destruct dotenvErr; [discriminate |].
  destruct (0 <? strlen (getenv "PONSE_DISABLE_TLS")) eqn:Hd.
  - cbn [negb andb].
    destruct (main_serverURI (getenv "PONSE_SERVER_URI")) as [a p].
    intros [= <- <- <- <- <-]. split; [reflexivity |]. split; [reflexivity |].
    intros range_order conn0 serverConn0 envs s' H Hne. exfalso. apply Hne.
    unfold handleIRTSPConnection in H.
    destruct (result (rounds range_order true (mkSession conn0 serverConn0) envs))
      as [[s1 |] | pn] eqn:E; cbn [result] in H; try discriminate H.
    injection H as <-.
    exact (rounds_conn_TLS_disabled range_order _ envs s1 E).
  - cbn [negb andb]. destruct keyPairErr; [discriminate |].
    destruct (main_serverURI (getenv "PONSE_SERVER_URI")) as [a p].
    intros [= <- <- <- <- <-]. repeat split; reflexivity.
Qed.

(** The address of the comment in [main], TLS left enabled. *)
Lemma main_loads_key_pair_for_every_TLS_server_witness :
  let getenv := fun name : string =>
    if String.eqb name "PONSE_SERVER_URI" then "irtsp://140.227.187.170:41002"
    else "" in
  main false getenv false
  = MainListen false true "140.227.187.170" "41002" (Listen "tcp" ":41002")
  /\ Listen "tcp" ":41002" = Listen "tcp" (String ":" "41002").
Proof.
  intros getenv.
  assert (H : main false getenv false
              = MainListen false true "140.227.187.170" "41002"
                  (Listen "tcp" ":41002")) by (vm_compute; reflexivity).
  split; [exact H |].
  exact (proj1 (proj2 (main_loads_key_pair_for_every_TLS_server
                         false getenv false _ _ _ _ _ H))).
Defined.
